(** * Silent link crawler: extraction, normalisation and deduplicated storage

    A shallow embedding of [crawler_bot.py].  Python strings are sequences of
    code points; here a character is an [ascii], read as a code point below
    256.  Exceptions are values of [result]; the sqlite database, the clock,
    the storage engine's faults and the console are fields of [World]. *)

From Stdlib Require Import String Ascii List ZArith NArith Lia Bool.
From Stdlib Require Import Permutation.
Import ListNotations.
Local Open Scope list_scope.
Local Open Scope string_scope.

(** ** Exceptions *)

Inductive exn : Type :=
| ValueError        (* urllib.parse: malformed bracketed host *)
| AttributeError    (* attribute access on None *)
| IntegrityError    (* sqlite3: a constraint of the table is violated *)
| OperationalError  (* sqlite3: fault of the storage engine *).

Inductive result (A : Type) : Type :=
| Ok (a : A)
| Raise (e : exn).
Arguments Ok {A} a.
Arguments Raise {A} e.

Definition bind {A B : Type} (r : result A) (k : A -> result B) : result B :=
  match r with
  | Ok a => k a
  | Raise e => Raise e
  end.

Notation "x <- r ;; k" := (bind r (fun x => k))
  (at level 61, r at next level, right associativity).

(** ** Python string operations used by the crawler *)

Module Py.

Definition code (c : ascii) : N := N_of_ascii c.

(** [prefix in s] for [s.startswith(prefix)]. *)
Fixpoint startswith (prefix s : string) : bool :=
  match prefix, s with
  | EmptyString, _ => true
  | String a p, String b t => Ascii.eqb a b && startswith p t
  | String _ _, EmptyString => false
  end.

(** [needle in s]. *)
Fixpoint contains (needle s : string) : bool :=
  startswith needle s
  || match s with
     | EmptyString => false
     | String _ t => contains needle t
     end.

(** [c in s] for a single character. *)
Fixpoint has_char (c : ascii) (s : string) : bool :=
  match s with
  | EmptyString => false
  | String a t => Ascii.eqb a c || has_char c t
  end.

Fixpoint all_chars (p : ascii -> bool) (s : string) : bool :=
  match s with
  | EmptyString => true
  | String a t => p a && all_chars p t
  end.

(** [s.rstrip(c)] for a one-character set. *)
Fixpoint rstrip (c : ascii) (s : string) : string :=
  match s with
  | EmptyString => EmptyString
  | String a t =>
      match rstrip c t with
      | EmptyString => if Ascii.eqb a c then EmptyString else String a EmptyString
      | r => String a r
      end
  end.

(** [s.lstrip(chars)], the character set given as a predicate. *)
Fixpoint lstrip (p : ascii -> bool) (s : string) : string :=
  match s with
  | EmptyString => EmptyString
  | String a t => if p a then lstrip p t else s
  end.

(** Removal of every character of a set ([s.replace(b, "")] for each [b]). *)
Fixpoint remove (p : ascii -> bool) (s : string) : string :=
  match s with
  | EmptyString => EmptyString
  | String a t => if p a then remove p t else String a (remove p t)
  end.

(** [(s[:i], s[i:])] for [i] the first position whose character satisfies
    [p], or [(s, "")] when there is none. *)
Fixpoint break (p : ascii -> bool) (s : string) : string * string :=
  match s with
  | EmptyString => (EmptyString, EmptyString)
  | String a t =>
      if p a then (EmptyString, s)
      else let (l, r) := break p t in (String a l, r)
  end.

Definition cons_head (a : ascii) (l : list string) : list string :=
  match l with
  | [] => [String a EmptyString]
  | h :: t => String a h :: t
  end.

(** [s.split(sep)] for a one-character separator. *)
Fixpoint split (sep : ascii) (s : string) : list string :=
  match s with
  | EmptyString => [EmptyString]
  | String a t =>
      if Ascii.eqb a sep then EmptyString :: split sep t
      else cons_head a (split sep t)
  end.

(** [s[1:]]. *)
Definition tail (s : string) : string :=
  match s with
  | EmptyString => EmptyString
  | String _ t => t
  end.

(** [str.isdigit] on one code point below 256: the decimal digits and the
    superscripts two, three and one. *)
Definition digit_char (c : ascii) : bool :=
  let n := code c in
  ((48 <=? n) && (n <=? 57) || (n =? 178) || (n =? 179) || (n =? 185))%N.

(** [s.isdigit()]: non-empty and every character a digit. *)
Definition isdigit (s : string) : bool :=
  match s with
  | EmptyString => false
  | String _ _ => all_chars digit_char s
  end.

Definition upper_ascii (c : ascii) : bool :=
  ((65 <=? code c) && (code c <=? 90))%N.

Definition lower_ascii (c : ascii) : bool :=
  ((97 <=? code c) && (code c <=? 122))%N.

(** [c.isascii() and c.isalpha()]. *)
Definition ascii_alpha (c : ascii) : bool := upper_ascii c || lower_ascii c.

Definition lower_char (c : ascii) : ascii :=
  if upper_ascii c then ascii_of_N (code c + 32) else c.

(** [s.lower()] on a string of ASCII characters. *)
Fixpoint lower (s : string) : string :=
  match s with
  | EmptyString => EmptyString
  | String a t => String (lower_char a) (lower t)
  end.

(** Truth value of an optional string: [None] and [""] are false. *)
Definition truthy (o : option string) : bool :=
  match o with
  | Some (String _ _) => true
  | _ => false
  end.

(** [a or b] on optional strings. *)
Definition or_else (a b : option string) : option string :=
  if truthy a then a else b.

(** A slice bound resolved against a length [n], as Python does for
    [s[a:b]]: a negative bound counts from the end, and the result is
    clamped to [0..n]. *)
Definition clamp (n i : Z) : nat :=
  Z.to_nat (Z.min n (Z.max 0 (if (i <? 0)%Z then (i + n)%Z else i))).

(** [s[a:b]]. *)
Definition slice (s : string) (a b : Z) : string :=
  let n := Z.of_nat (String.length s) in
  let lo := clamp n a in
  let hi := clamp n b in
  String.substring lo (hi - lo) s.

End Py.

(** ** Messages as the transport delivers them *)

(** The type of an entity; a [TEXT_LINK] entity carries its URL (the
    transport supplies [entity.url] for exactly this type). *)
Inductive EntityType : Type :=
| URL
| TEXT_LINK (url : string)
| OTHER_ENTITY.

Record MessageEntity : Type := mkEntity {
  entity_type : EntityType;
  entity_offset : Z;
  entity_length : Z
}.

Record InlineKeyboardButton : Type := mkButton {
  button_text : string;
  button_url : option string
}.

Record InlineKeyboardMarkup : Type := mkMarkup {
  inline_keyboard : list (list InlineKeyboardButton)
}.

#[warnings="-register-all"]
Inductive Message : Type := mkMessage {
  text : option string;
  entities : list MessageEntity;
  caption : option string;
  caption_entities : list MessageEntity;
  reply_markup : option InlineKeyboardMarkup;
  reply_to_message : option Message
}.

Record Chat : Type := mkChat {
  chat_id : Z;
  title : option string;
  username : option string
}.

Record User : Type := mkUser {
  user_id : Z;
  full_name : string
}.

(** ** Link extraction *)

Local Open Scope list_scope.

(** One turn of the loop over [entities]: [result.append(...)]. *)
Definition entity_step (text : string) (result : list string)
    (entity : MessageEntity) : list string :=
  match entity_type entity with
  | URL =>
      result ++ [Py.slice text (entity_offset entity)
                   (entity_offset entity + entity_length entity)]
  | TEXT_LINK url => result ++ [url]
  | OTHER_ENTITY => result
  end%list.

Definition extract_links_from_entities (text : string)
    (entities : list MessageEntity) : list string :=
  fold_left (entity_step text) entities [].

Definition button_step (result : list string)
    (button : InlineKeyboardButton) : list string :=
  match button_url button with
  | Some (String _ _ as url) => (result ++ [url])%list
  | _ => result
  end.

Definition extract_links_from_buttons (markup : InlineKeyboardMarkup)
  : list string :=
  fold_left (fun result row => fold_left button_step row result)
    (inline_keyboard markup) [].

Fixpoint extract_all_links_from_message (message : Message) : list string :=
  let links := [] in
  let links :=
    match text message with
    | Some (String _ _ as t) =>
        links ++ extract_links_from_entities t (entities message)
    | _ => links
    end in
  let links :=
    match caption message with
    | Some (String _ _ as c) =>
        links ++ extract_links_from_entities c (caption_entities message)
    | _ => links
    end in
  let links :=
    match reply_markup message with
    | Some markup => links ++ extract_links_from_buttons markup
    | None => links
    end in
  let links :=
    match reply_to_message message with
    | Some parent => links ++ extract_all_links_from_message parent
    | None => links
    end in
  links%list.

(** ** The links table *)

Record Row : Type := mkRow {
  row_id : Z;
  normalized_link : string;
  original_link : string;
  platform : string;
  group_id : Z;
  group_name : option string;
  sender_id : Z;
  sender_name : string;
  date_added : Z
}.

(** The table with the counter behind [AUTOINCREMENT]. *)
Record Database : Type := mkDatabase {
  rows : list Row;
  sequence : Z
}.

(** [UNIQUE(normalized_link, group_id)]: a row with this pair exists. *)
Definition stored (group : Z) (t : list Row) (normalized : string) : bool :=
  existsb (fun r => String.eqb (normalized_link r) normalized
                    && (group_id r =? group)%Z) t.

(** [cursor.execute("INSERT INTO links ...")] on the connection's view of the
    table.  [fault] is the storage engine failing on this statement. *)
Definition execute_insert (normalized link platform : string) (chat : Chat)
    (sender : User) (now : Z) (fault : bool) (conn : Database)
  : result Database :=
  if fault then Raise OperationalError
  else if stored (chat_id chat) (rows conn) normalized
       then Raise IntegrityError
       else
         let id := (sequence conn + 1)%Z in
         Ok (mkDatabase
               (rows conn ++
                [mkRow id normalized link platform (chat_id chat)
                   (Py.or_else (title chat) (username chat))
                   (user_id sender) (full_name sender) now])%list
               id).

(** ** The world around the bot *)

Inductive Line : Type :=
| SavedLine (added : nat) (chat : Z) (chat_title : option string).

Inductive Event : Type :=
| Connect
| Commit
| Close
| Print (line : Line).

(** [db] is the committed content of links.db, [clock] the UTC instant,
    [faults] the outcome of the coming INSERT statements ([true]: the engine
    fails; none when the list runs out), [trace] what the process has done to
    the database file and the console, oldest first. *)
Record World : Type := mkWorld {
  db : Database;
  clock : Z;
  faults : list bool;
  trace : list Event
}.

Definition log (e : Event) (w : World) : World :=
  mkWorld (db w) (clock w) (faults w) (trace w ++ [e])%list.

Definition utcnow (w : World) : Z * World :=
  (clock w, mkWorld (db w) (clock w + 1)%Z (faults w) (trace w)).

Definition next_fault (w : World) : bool * World :=
  match faults w with
  | [] => (false, w)
  | f :: fs => (f, mkWorld (db w) (clock w) fs (trace w))
  end.

Definition commit (conn : Database) (w : World) : World :=
  log Commit (mkWorld conn (clock w) (faults w) (trace w)).

(** Connections opened and not closed. *)
Fixpoint open_connections (t : list Event) : Z :=
  match t with
  | [] => 0
  | Connect :: t' => open_connections t' + 1
  | Close :: t' => open_connections t' - 1
  | _ :: t' => open_connections t'
  end%Z.

Local Open Scope string_scope.

(** ** urllib.parse.urlparse *)

Record ParseResult : Type := mkParseResult {
  scheme : string;
  netloc : string;
  path : string;
  params : string;
  query : string;
  fragment : string
}.

Definition uses_params : list string :=
  [""; "ftp"; "hdl"; "prospero"; "http"; "imap"; "https"; "shttp"; "rtsp";
   "rtspu"; "sip"; "sips"; "mms"; "sftp"; "tel"].

(** [c in scheme_chars]: letters, digits and [+-.] *)
Definition scheme_char (c : ascii) : bool :=
  let n := Py.code c in
  (Py.ascii_alpha c || (48 <=? n) && (n <=? 57)
   || (n =? 43) || (n =? 45) || (n =? 46))%N.

(** [_WHATWG_C0_CONTROL_OR_SPACE]: code points 0 to 32. *)
Definition c0_control_or_space (c : ascii) : bool := (Py.code c <=? 32)%N.

(** [_UNSAFE_URL_BYTES_TO_REMOVE]: tab, carriage return, newline. *)
Definition unsafe_url_byte (c : ascii) : bool :=
  let n := Py.code c in ((n =? 9) || (n =? 13) || (n =? 10))%N.

Definition netloc_delim (c : ascii) : bool :=
  Ascii.eqb c "/" || Ascii.eqb c "?" || Ascii.eqb c "#".

(** The scheme test of [urlsplit]: a colon at a position [i > 0], an ASCII
    letter first, and only scheme characters before the colon. *)
Definition split_scheme (url : string) : string * string :=
  match Py.break (Ascii.eqb ":") url with
  | (String a _ as before, String _ rest) =>
      if Py.ascii_alpha a && Py.all_chars scheme_char before
      then (Py.lower before, rest)
      else (EmptyString, url)
  | _ => (EmptyString, url)
  end.

(** [_splitnetloc(url, 2)] under the test [url[:2] == '//']. *)
Definition split_netloc (url : string) : string * string :=
  match url with
  | String "/" (String "/" r) => Py.break netloc_delim r
  | _ => (EmptyString, url)
  end.

(** [url.split(c, 1)] under the test [c in url]: the text before the first
    [c] and the text after it. *)
Definition split_once (c : ascii) (url : string) : string * string :=
  match Py.break (Ascii.eqb c) url with
  | (before, String _ rest) => (before, rest)
  | (_, EmptyString) => (url, EmptyString)
  end.

(** [_splitparams]: the parameters start at the first semicolon after the
    last slash. *)
Fixpoint splitparams (url : string) : string * string :=
  match url with
  | EmptyString => (EmptyString, EmptyString)
  | String a t =>
      if negb (Py.has_char "/" t) && Ascii.eqb a ";" then (EmptyString, t)
      else let (p, q) := splitparams t in (String a p, q)
  end.

(** ** The parts of an extraction *)

Local Open Scope list_scope.

Definition entity_link (text : string) (entity : MessageEntity) : list string :=
  match entity_type entity with
  | URL =>
      [Py.slice text (entity_offset entity)
         (entity_offset entity + entity_length entity)]
  | TEXT_LINK url => [url]
  | OTHER_ENTITY => []
  end.

Definition button_link (button : InlineKeyboardButton) : list string :=
  match button_url button with
  | Some (String _ _ as url) => [url]
  | _ => []
  end.

Definition text_links (m : Message) : list string :=
  match text m with
  | Some (String _ _ as t) => flat_map (entity_link t) (entities m)
  | _ => []
  end.

Definition caption_links (m : Message) : list string :=
  match caption m with
  | Some (String _ _ as c) => flat_map (entity_link c) (caption_entities m)
  | _ => []
  end.

Definition button_links (m : Message) : list string :=
  match reply_markup m with
  | Some markup => flat_map (flat_map button_link) (inline_keyboard markup)
  | None => []
  end.

Definition parent_links (m : Message) : list string :=
  match reply_to_message m with
  | Some parent => extract_all_links_from_message parent
  | None => []
  end.

Local Open Scope string_scope.

(** The world at the first start: [init_db] has created an empty table. *)
Definition first_start : World := mkWorld (mkDatabase [] 0) 0 [] [].

(** ** Start of the process *)

Inductive Startup : Type :=
| InitDb
| PrintTokenNotFound
| BuildApplication (token : string)
| AddHandler
| PrintRunning
| RunPolling.

(** [exit(code)]: the status the process ends with; [exit()] passes [None]. *)
Definition exit_status (code : option Z) : Z :=
  match code with
  | None => 0
  | Some n => n
  end.

(** The module body, top to bottom: what it does, and the exit status when
    it ends by [exit] ([None]: it goes on, into polling when run as
    [__main__]). *)
Definition module_body (TOKEN : option string) (is_main : bool)
  : list Startup * option Z :=
  let done := [InitDb] in
  if negb (Py.truthy TOKEN)
  then ((done ++ [PrintTokenNotFound])%list, Some (exit_status None))
  else
    match TOKEN, is_main with
    | Some token, true =>
        ((done ++ [BuildApplication token; AddHandler; PrintRunning; RunPolling])%list,
         None)
    | _, _ => (done, None)
    end.

(** ** Inputs of the concrete runs *)

(** No run below has a host in brackets, so the check of such hosts is never
    consulted there; it is set to refuse them. *)
Definition no_bracketed_host : string -> bool := fun _ => false.

Definition group_a : Chat := mkChat 1 (Some "A") None.
Definition group_b : Chat := mkChat 2 (Some "B") None.
Definition poster : User := mkUser 7 "Ada".

(** A world whose storage engine fails on the next INSERT. *)
Definition failing_disk : World := mkWorld (mkDatabase [] 0) 0 [true] [].

(** A message with a link to a post of a channel and a link with a query. *)
Definition two_links_message : Message :=
  mkMessage (Some "https://t.me/chan/5 https://example.com/a/?x=1")
    [mkEntity URL 0 19; mkEntity URL 20 26] None [] None None.

(** The table and the clock once [two_links_message] is saved for [group_a]
    at the first start. *)
Definition two_links_saved : World :=
  mkWorld
    (mkDatabase
       [mkRow 1 "https://t.me/chan" "https://t.me/chan/5" "telegram"
          1 (Some "A") 7 "Ada" 0;
        mkRow 2 "https://example.com/a" "https://example.com/a/?x=1" "other"
          1 (Some "A") 7 "Ada" 1]
       2)
    2 [] [Connect; Commit; Close].

Section Crawler.

(** [_check_bracketed_netloc] decides whether a host written in brackets is
    acceptable; it goes through the [re] and [ipaddress] modules, which are
    not part of the program, so it is a parameter ([true]: no error). *)
Variable check_bracketed_netloc : string -> bool.

(** The bracket tests of [urlsplit].  [_checknetloc] is not listed: it
    raises only when NFKC normalisation of a non-ASCII host produces one of
    [/?#@:], which no code point below 256 does. *)
Definition check_netloc (n : string) : result unit :=
  let opening := Py.has_char "[" n in
  let closing := Py.has_char "]" n in
  if (opening && negb closing) || (closing && negb opening)
  then Raise ValueError
  else if opening && closing && negb (check_bracketed_netloc n)
       then Raise ValueError
       else Ok tt.

Definition urlparse (link : string) : result ParseResult :=
  let url := Py.lstrip c0_control_or_space link in
  let url := Py.remove unsafe_url_byte url in
  let (sch, url) := split_scheme url in
  let (loc, url) := split_netloc url in
  _ <- check_netloc loc ;;
  let (url, frag) := split_once "#" url in
  let (url, qry) := split_once "?" url in
  let (url, prm) :=
    if existsb (String.eqb sch) uses_params && Py.has_char ";" url
    then splitparams url
    else (url, EmptyString) in
  Ok (mkParseResult sch loc url prm qry frag).

(** ** Link normalisation *)

Definition normalize_link (link : string) : result string :=
  parsed <- urlparse link ;;
  let path := Py.rstrip "/" (path parsed) in
  Ok (scheme parsed ++ "://" ++ netloc parsed ++ path).

Definition special_prefixes : list string :=
  ["/joinchat/"; "/addstickers/"; "/s/"; "/proxy"].

Definition normalize_telegram_channel (link : string) : result string :=
  parsed <- urlparse link ;;
  let path := Py.rstrip "/" (path parsed) in
  if existsb (fun prefix => Py.startswith prefix path) special_prefixes
  then Ok (scheme parsed ++ "://" ++ netloc parsed ++ path)
  else
    if String.eqb (netloc parsed) "t.me" && Py.contains "/" (Py.tail path)
    then
      let parts := Py.split "/" path in
      if (3 <=? List.length parts)%nat && Py.isdigit (nth 2 parts EmptyString)
      then Ok (scheme parsed ++ "://" ++ netloc parsed ++ "/"
               ++ nth 1 parts EmptyString)
      else Ok (scheme parsed ++ "://" ++ netloc parsed ++ path)
    else Ok (scheme parsed ++ "://" ++ netloc parsed ++ path).

Definition detect_platform (link : string) : string :=
  if Py.contains "t.me" link then "telegram"
  else if Py.contains "chat.whatsapp.com" link then "whatsapp"
  else "other".

(** The canonical link as [save_links_to_db] computes it (line 104). *)
Definition normalized_of (link : string) : result string :=
  if Py.contains "t.me" link
  then normalize_telegram_channel link
  else normalize_link link.

(** ** Saving to the database *)

(** The loop of [save_links_to_db] over [original_links]: [conn] is the
    table as the open connection sees it, inserted rows included. *)
Fixpoint insert_each (original_links : list string) (chat : Chat)
    (sender : option User) (conn : Database) (saved_count : nat)
    (w : World) : World * result (Database * nat) :=
  match original_links with
  | [] => (w, Ok (conn, saved_count))
  | link :: rest =>
      match normalized_of link with
      | Raise e => (w, Raise e)
      | Ok normalized =>
          let platform := detect_platform link in
          let (now, w) := utcnow w in
          match sender with
          | None => (w, Raise AttributeError)
          | Some s =>
              let (fault, w) := next_fault w in
              match execute_insert normalized link platform chat s now
                      fault conn with
              | Ok conn' => insert_each rest chat sender conn' (S saved_count) w
              | Raise IntegrityError =>
                  insert_each rest chat sender conn saved_count w
              | Raise e => (w, Raise e)
              end
          end
      end
  end.

Definition save_links_to_db (original_links : list string) (chat : Chat)
    (sender : option User) (w : World) : World * result nat :=
  let w := log Connect w in
  let (w, r) := insert_each original_links chat sender (db w) 0 w in
  match r with
  | Raise e => (w, Raise e)
  | Ok (conn, saved_count) =>
      let w := commit conn w in
      let w := log Close w in
      (w, Ok saved_count)
  end.

(** ** The handler *)

Definition handle_all_messages (message : option Message) (chat : Chat)
    (sender : option User) (w : World) : World * result unit :=
  match message with
  | None => (w, Ok tt)
  | Some message =>
      match extract_all_links_from_message message with
      | [] => (w, Ok tt)
      | all_links =>
          let (w, r) := save_links_to_db all_links chat sender w in
          match r with
          | Raise e => (w, Raise e)
          | Ok added =>
              match added with
              | O => (w, Ok tt)
              | S _ =>
                  (log (Print (SavedLine added (chat_id chat) (title chat))) w,
                   Ok tt)
              end
          end
      end
  end.

(** ** Vocabulary of the statements *)

(** [k] slashes. *)
Fixpoint slashes (k : nat) : string :=
  match k with
  | O => EmptyString
  | S k' => String "/" (slashes k')
  end.

Fixpoint ends_with (c : ascii) (s : string) : bool :=
  match s with
  | EmptyString => false
  | String a EmptyString => Ascii.eqb a c
  | String _ t => ends_with c t
  end.

Definition has_special_prefix (path : string) : bool :=
  existsb (fun prefix => Py.startswith prefix path) special_prefixes.

(** [scheme://host] followed by the path without its trailing slashes. *)
Definition general_form (p : ParseResult) : string :=
  scheme p ++ "://" ++ netloc p ++ Py.rstrip "/" (path p).

(** The canonical links of a batch, in order; the first failure is the
    batch's. *)
Fixpoint canonical_links (links : list string) : result (list string) :=
  match links with
  | [] => Ok []
  | link :: rest =>
      c <- normalized_of link ;;
      cs <- canonical_links rest ;;
      Ok (c :: cs)
  end.

(** The candidates [(canonical, raw)] whose canonical link is neither [seen]
    nor met earlier in the list. *)
Fixpoint first_new (seen : string -> bool) (cands : list (string * string))
  : list (string * string) :=
  match cands with
  | [] => []
  | (c, raw) :: rest =>
      if seen c then first_new seen rest
      else (c, raw) :: first_new (fun x => seen x || String.eqb x c) rest
  end.

(** The uniqueness key of a record. *)
Definition key (r : Row) : string * Z := (normalized_link r, group_id r).

Definition unique_pairs (t : list Row) : Prop := NoDup (map key t).

(** No INSERT to come fails in the storage engine. *)
Definition no_fault (w : World) : Prop := forallb negb (faults w) = true.

Definition records_of (group : Z) (t : list Row) : list Row :=
  filter (fun r => (group_id r =? group)%Z) t.

(** The character a query or a fragment starts with. *)
Definition suffix_mark (c : ascii) : Prop := c = "?"%char \/ c = "#"%char.

(** Two parses that agree on what the canonical link is built from, or fail
    alike. *)
Definition same_identity (r r' : result ParseResult) : Prop :=
  match r, r' with
  | Ok p, Ok p' =>
      scheme p = scheme p' /\ netloc p = netloc p' /\ path p = path p'
  | Raise e, Raise e' => e = e'
  | _, _ => False
  end.

(** [c] is the normal form of [link].  A telegram link whose path begins
    with no reserved prefix, on host t.me and with a numeric second path
    segment, has scheme, host and its first segment; every other link has
    scheme, host and the path without its trailing slashes. *)
Definition is_canonical_of (link c : string) : Prop :=
  exists p,
    urlparse link = Ok p
    /\ ((c = scheme p ++ "://" ++ netloc p ++ Py.rstrip "/" (path p)
         /\ (Py.contains "t.me" link = false
             \/ has_special_prefix (path p) = true
             \/ netloc p <> "t.me"
             \/ forall second,
                  nth_error (Py.split "/" (path p)) 2 = Some second ->
                  Py.isdigit second = false))
        \/ (Py.contains "t.me" link = true
            /\ has_special_prefix (path p) = false
            /\ netloc p = "t.me"
            /\ exists first second,
                 nth_error (Py.split "/" (path p)) 1 = Some first
                 /\ nth_error (Py.split "/" (path p)) 2 = Some second
                 /\ Py.isdigit second = true
                 /\ c = scheme p ++ "://" ++ netloc p ++ "/" ++ first)).

(** A string of ASCII characters. *)
Definition ascii_only (s : string) : bool :=
  Py.all_chars (fun c => (Py.code c <? 128)%N) s.

(** A string that [urlsplit] takes for a scheme when a colon follows it. *)
Definition valid_scheme (s : string) : bool :=
  match s with
  | EmptyString => false
  | String a _ => Py.ascii_alpha a && Py.all_chars scheme_char s
  end.

(** A character that neither ends a path segment nor is dropped or cut off
    by the parse. *)
Definition segment_char (c : ascii) : bool :=
  negb (Ascii.eqb c "/" || Ascii.eqb c "?" || Ascii.eqb c "#"
        || Ascii.eqb c ";" || unsafe_url_byte c).

(** A prefix whose only slash, if any, is its last character. *)
Fixpoint slash_only_last (p : string) : bool :=
  match p with
  | EmptyString => true
  | String a EmptyString => true
  | String a t => negb (Ascii.eqb a "/") && slash_only_last t
  end.

(** The primary key: no id twice, none above the counter. *)
Definition ids_fresh (d : Database) : Prop :=
  NoDup (map row_id (rows d))
  /\ Forall (fun r => (row_id r <= sequence d)%Z) (rows d).

(** What a row says of the candidate it was made from. *)
Definition describes (links : list string) (chat : Chat)
    (sender : option User) (r : Row) : Prop :=
  In (original_link r) links
  /\ normalized_of (original_link r) = Ok (normalized_link r)
  /\ platform r = detect_platform (original_link r)
  /\ group_id r = chat_id chat
  /\ group_name r = Py.or_else (title chat) (username chat)
  /\ sender = Some (mkUser (sender_id r) (sender_name r)).

(** ** Facts about the string operations *)

Lemma append_assoc (a b c : string) : (a ++ b) ++ c = a ++ (b ++ c).
Proof. induction a as [|x a IH]; simpl; [reflexivity|now rewrite IH]. Qed.

Lemma append_empty_r (a : string) : a ++ "" = a.
Proof. induction a as [|x a IH]; simpl; [reflexivity|now rewrite IH]. Qed.

Lemma startswith_refl_app (p t : string) : Py.startswith p (p ++ t) = true.
Proof.
  induction p as [|a p IH]; simpl; [reflexivity|].
  now rewrite Ascii.eqb_refl, IH.
Qed.

Lemma startswith_inv (p s : string) :
  Py.startswith p s = true -> exists t, s = p ++ t.
Proof.
  revert s; induction p as [|a p IH]; intros s H; simpl in *.
  - now exists s.
  - destruct s as [|b s]; [discriminate|].
    apply andb_prop in H as [Hab Hp].
    apply Ascii.eqb_eq in Hab; subst b.
    destruct (IH _ Hp) as [t ->]. now exists t.
Qed.

Lemma startswith_app_l (p s t : string) :
  Py.startswith p s = true -> Py.startswith p (s ++ t) = true.
Proof.
  intros H. destruct (startswith_inv _ _ H) as [r ->].
  rewrite append_assoc. apply startswith_refl_app.
Qed.

Lemma rstrip_decompose (c : ascii) (s : string) :
  exists k, s = Py.rstrip c s ++ String.concat "" (repeat (String c "") k).
Proof.
  induction s as [|a s [k IH]]; simpl.
  - now exists 0.
  - destruct (Py.rstrip c s) as [|b r] eqn:E.
    + destruct (Ascii.eqb a c) eqn:Eac.
      * apply Ascii.eqb_eq in Eac; subst a.
        exists (S k). simpl in *. rewrite IH at 1.
        destruct k; reflexivity.
      * exists k. simpl in *. now rewrite IH at 1.
    + exists k. simpl in *. now rewrite IH at 1.
Qed.

Lemma startswith_rstrip (c : ascii) (p s : string) :
  Py.startswith p (Py.rstrip c s) = true -> Py.startswith p s = true.
Proof.
  intros H. destruct (rstrip_decompose c s) as [k E].
  rewrite E. now apply startswith_app_l.
Qed.

Lemma rstrip_not_ends_with (c : ascii) (s : string) :
  ends_with c (Py.rstrip c s) = false.
Proof.
  induction s as [|a s IH]; simpl; [reflexivity|].
  destruct (Py.rstrip c s) as [|b r] eqn:E.
  - destruct (Ascii.eqb a c) eqn:Eac; simpl; [reflexivity|exact Eac].
  - exact IH.
Qed.

Lemma rstrip_slashes (s : string) :
  exists k, s = Py.rstrip "/" s ++ slashes k.
Proof.
  induction s as [|a s [k IH]]; simpl.
  - now exists 0.
  - destruct (Py.rstrip "/" s) as [|b r] eqn:E.
    + destruct (Ascii.eqb a "/") eqn:Eac.
      * apply Ascii.eqb_eq in Eac; subst a.
        exists (S k). simpl in *. now rewrite IH at 1.
      * exists k. simpl in *. now rewrite IH at 1.
    + exists k. simpl in *. now rewrite IH at 1.
Qed.

Lemma split_not_nil (c : ascii) (s : string) : Py.split c s <> [].
Proof.
  destruct s as [|a s]; simpl; [discriminate|].
  destruct (Ascii.eqb a c); [discriminate|].
  destruct (Py.split c s); discriminate.
Qed.

Lemma cons_head_app (a : ascii) (l m : list string) :
  l <> [] -> Py.cons_head a (l ++ m)%list = (Py.cons_head a l ++ m)%list.
Proof. destruct l; [congruence|reflexivity]. Qed.

Lemma split_cons (c a : ascii) (t : string) :
  Py.split c (String a t) =
  if Ascii.eqb a c then EmptyString :: Py.split c t
  else Py.cons_head a (Py.split c t).
Proof. reflexivity. Qed.

(** Stripping trailing separators only removes empty segments at the end. *)
Lemma split_rstrip (c : ascii) (s : string) :
  exists k,
    Py.split c s = (Py.split c (Py.rstrip c s) ++ repeat EmptyString k)%list.
Proof.
  induction s as [|a s [k IH]].
  - now exists 0.
  - rewrite split_cons. cbn [Py.rstrip].
    destruct (Py.rstrip c s) as [|b r] eqn:E.
    + cbn [Py.split] in IH. destruct (Ascii.eqb a c) eqn:Eac.
      * exists (S k). cbn [Py.split]. now rewrite IH.
      * exists k. rewrite IH, split_cons, Eac. reflexivity.
    + rewrite (split_cons c a (String b r)).
      destruct (Ascii.eqb a c) eqn:Eac.
      * exists k. now rewrite IH.
      * exists k. rewrite IH. apply cons_head_app, split_not_nil.
Qed.

Lemma nth_error_repeat_some {A : Type} (x y : A) (k n : nat) :
  nth_error (repeat x k) n = Some y -> y = x.
Proof.
  revert n; induction k as [|k IH]; intros [|n]; simpl; try discriminate.
  - congruence.
  - apply IH.
Qed.

(** A non-empty segment of the path is a segment of the stripped path, at
    the same position, and so is every segment before it. *)
Lemma split_rstrip_nth (c : ascii) (s seg : string) (n : nat) :
  nth_error (Py.split c s) n = Some seg -> seg <> EmptyString ->
  n < List.length (Py.split c (Py.rstrip c s))
  /\ forall m, m <= n ->
       nth_error (Py.split c (Py.rstrip c s)) m = nth_error (Py.split c s) m.
Proof.
  intros H Hne. destruct (split_rstrip c s) as [k E].
  rewrite E in H |- *.
  assert (Hlt : n < List.length (Py.split c (Py.rstrip c s))).
  { destruct (Nat.lt_ge_cases n (List.length (Py.split c (Py.rstrip c s))))
      as [L|L]; [exact L|].
    rewrite nth_error_app2 in H by exact L.
    apply nth_error_repeat_some in H. congruence. }
  split; [exact Hlt|].
  intros m Hm. rewrite nth_error_app1 by lia. reflexivity.
Qed.

Lemma has_char_split (c : ascii) (s : string) :
  2 <= List.length (Py.split c s) -> Py.has_char c s = true.
Proof.
  induction s as [|a s IH]; simpl; [lia|].
  destruct (Ascii.eqb a c) eqn:Eac; [reflexivity|].
  intros H. simpl. apply IH.
  destruct (Py.split c s) as [|h t] eqn:E; [now apply split_not_nil in E|].
  exact H.
Qed.

Lemma contains_char (c : ascii) (s : string) :
  Py.contains (String c "") s = Py.has_char c s.
Proof.
  induction s as [|a s IH]; simpl; [reflexivity|].
  rewrite IH, Ascii.eqb_sym.
  destruct (Ascii.eqb a c); reflexivity.
Qed.

Lemma contains_tail_split (c : ascii) (s : string) :
  3 <= List.length (Py.split c s) ->
  Py.contains (String c "") (Py.tail s) = true.
Proof.
  intros H. rewrite contains_char. destruct s as [|a s]; simpl in *; [lia|].
  apply has_char_split.
  destruct (Ascii.eqb a c); simpl in H; [lia|].
  destruct (Py.split c s) as [|h t] eqn:E; [now apply split_not_nil in E|].
  simpl in *. lia.
Qed.

Lemma isdigit_nonempty (s : string) : Py.isdigit s = true -> s <> EmptyString.
Proof. destruct s; [discriminate|discriminate]. Qed.

Lemma nth_error_nth_default {A : Type} (l : list A) (n : nat) (x d : A) :
  nth_error l n = Some x -> nth n l d = x.
Proof.
  revert n; induction l as [|a l IH]; intros [|n]; simpl; try discriminate.
  - congruence.
  - apply IH.
Qed.

(** ** Normalisation *)

Lemma has_special_prefix_rstrip (s : string) :
  has_special_prefix s = false ->
  has_special_prefix (Py.rstrip "/" s) = false.
Proof.
  unfold has_special_prefix. intros H.
  apply not_true_is_false. intros E. rewrite existsb_exists in E.
  destruct E as [prefix [Hin Hp]].
  apply startswith_rstrip in Hp.
  assert (existsb (fun prefix => Py.startswith prefix s) special_prefixes = true)
    by (apply existsb_exists; eauto).
  congruence.
Qed.

Ltac strip_prefix_cases Hpath E1 :=
  match goal with
  | Hs : Py.startswith _ (path ?p) = true |- _ =>
      apply startswith_inv in Hs; destruct Hs as [r Hr];
      unfold general_form; rewrite Hr in E1 |- *;
      simpl in E1 |- *;
      destruct (Py.rstrip "/" r) eqn:Er; simpl in E1 |- *;
      try discriminate E1;
      rewrite ?andb_false_r; reflexivity
  end.

(** A path that begins with a reserved prefix keeps its whole path. *)
Lemma special_prefix_keeps_path (link : string) (p : ParseResult) :
  urlparse link = Ok p ->
  has_special_prefix (path p) = true ->
  normalize_telegram_channel link = Ok (general_form p).
Proof.
  intros Hp Hs. unfold normalize_telegram_channel. rewrite Hp. cbn [bind].
  destruct (existsb _ special_prefixes) eqn:E1; [reflexivity|].
  unfold has_special_prefix, special_prefixes in Hs. cbn [existsb] in Hs.
  rewrite orb_false_r in Hs.
  apply orb_prop in Hs as [Hs|Hs]; [strip_prefix_cases Hs E1|].
  apply orb_prop in Hs as [Hs|Hs]; [strip_prefix_cases Hs E1|].
  apply orb_prop in Hs as [Hs|Hs]; strip_prefix_cases Hs E1.
Qed.

(** A numeric second segment on t.me collapses the link to its channel. *)
Lemma numeric_second_segment_collapses (link : string) (p : ParseResult)
    (first second : string) :
  urlparse link = Ok p ->
  has_special_prefix (path p) = false ->
  netloc p = "t.me" ->
  nth_error (Py.split "/" (path p)) 1 = Some first ->
  nth_error (Py.split "/" (path p)) 2 = Some second ->
  Py.isdigit second = true ->
  normalize_telegram_channel link
  = Ok (scheme p ++ "://" ++ netloc p ++ "/" ++ first).
Proof.
  intros Hp Hs Hn H1 H2 Hd.
  unfold normalize_telegram_channel. rewrite Hp. cbn [bind].
  apply has_special_prefix_rstrip in Hs. unfold has_special_prefix in Hs.
  rewrite Hs, Hn. cbn [String.eqb Ascii.eqb Bool.eqb andb].
  destruct (split_rstrip_nth "/" _ _ _ H2 (isdigit_nonempty _ Hd)) as [Hlt Hpre].
  rewrite contains_tail_split by lia.
  apply Nat.leb_le in Hlt. rewrite Hlt.
  rewrite <- (Hpre 2) in H2 by lia. rewrite <- (Hpre 1) in H1 by lia.
  rewrite (nth_error_nth_default _ _ _ EmptyString H2), Hd.
  rewrite (nth_error_nth_default _ _ _ EmptyString H1).
  reflexivity.
Qed.

(** ** What a query or fragment does to the parse *)

Lemma has_char_app (c : ascii) (a b : string) :
  Py.has_char c (a ++ b) = Py.has_char c a || Py.has_char c b.
Proof.
  induction a as [|x a IH]; simpl; [reflexivity|].
  now rewrite IH, orb_assoc.
Qed.

Lemma has_char_lstrip (c : ascii) (p : ascii -> bool) (u : string) :
  Py.has_char c u = false -> Py.has_char c (Py.lstrip p u) = false.
Proof.
  induction u as [|a u IH]; simpl; [reflexivity|].
  intros H. apply orb_false_elim in H as [Ha Hu].
  destruct (p a); [now apply IH|]. simpl. now rewrite Ha, Hu.
Qed.

Lemma has_char_remove (c : ascii) (p : ascii -> bool) (u : string) :
  Py.has_char c u = false -> Py.has_char c (Py.remove p u) = false.
Proof.
  induction u as [|a u IH]; simpl; [reflexivity|].
  intros H. apply orb_false_elim in H as [Ha Hu].
  destruct (p a); [now apply IH|]. simpl. now rewrite Ha, IH.
Qed.

Lemma lstrip_app_keep (p : ascii -> bool) (u : string) (c : ascii) (x : string) :
  p c = false ->
  Py.lstrip p (u ++ String c x) = Py.lstrip p u ++ String c x.
Proof.
  intros H. induction u as [|a u IH]; simpl.
  - now rewrite H.
  - destruct (p a); [exact IH|reflexivity].
Qed.

Lemma remove_app (p : ascii -> bool) (a b : string) :
  Py.remove p (a ++ b) = Py.remove p a ++ Py.remove p b.
Proof.
  induction a as [|x a IH]; simpl; [reflexivity|].
  destruct (p x); simpl; now rewrite IH.
Qed.

Lemma break_app (p : ascii -> bool) (v y : string) :
  Py.break p (v ++ y) =
  match Py.break p v with
  | (a, EmptyString) => let (l, r) := Py.break p y in (a ++ l, r)
  | (a, r) => (a, r ++ y)
  end.
Proof.
  induction v as [|x v IH]; simpl.
  - destruct (Py.break p y); reflexivity.
  - destruct (p x); [reflexivity|].
    rewrite IH. destruct (Py.break p v) as [a [|d r]].
    + destruct (Py.break p y); reflexivity.
    + reflexivity.
Qed.

Lemma break_append (p : ascii -> bool) (v : string) :
  v = fst (Py.break p v) ++ snd (Py.break p v).
Proof.
  induction v as [|x v IH]; simpl; [reflexivity|].
  destruct (p x); [reflexivity|].
  destruct (Py.break p v) as [a r]. simpl in *. now rewrite <- IH.
Qed.

Lemma break_none (c : ascii) (v : string) :
  Py.has_char c v = false -> Py.break (Ascii.eqb c) v = (v, EmptyString).
Proof.
  induction v as [|x v IH]; simpl; [reflexivity|].
  intros H. apply orb_false_elim in H as [Hx Hv].
  rewrite Ascii.eqb_sym, Hx, (IH Hv). reflexivity.
Qed.

Lemma has_char_break_snd (c : ascii) (p : ascii -> bool) (v : string) :
  Py.has_char c v = false -> Py.has_char c (snd (Py.break p v)) = false.
Proof.
  intros H. rewrite (break_append p v), has_char_app in H.
  now apply orb_false_elim in H.
Qed.

Lemma all_chars_app (p : ascii -> bool) (a b : string) :
  Py.all_chars p (a ++ b) = Py.all_chars p a && Py.all_chars p b.
Proof.
  induction a as [|x a IH]; simpl; [reflexivity|].
  now rewrite IH, andb_assoc.
Qed.

Lemma split_once_none (c : ascii) (y : string) :
  Py.has_char c y = false -> split_once c y = (y, EmptyString).
Proof. intros H. unfold split_once. now rewrite (break_none _ _ H). Qed.

Lemma split_once_first (c : ascii) (y x : string) :
  Py.has_char c y = false -> split_once c (y ++ String c x) = (y, x).
Proof.
  intros H. unfold split_once.
  rewrite break_app, (break_none _ _ H). simpl.
  now rewrite Ascii.eqb_refl, append_empty_r.
Qed.

Lemma split_scheme_suffix (v : string) (c : ascii) (x : string) :
  suffix_mark c ->
  split_scheme (v ++ String c x)
  = (fst (split_scheme v), snd (split_scheme v) ++ String c x).
Proof.
  intros Hc. unfold split_scheme. rewrite break_app.
  destruct (Py.break (Ascii.eqb ":") v) as [a [|d r]] eqn:E.
  - assert (Hv : v = a) by
      (rewrite (break_append (Ascii.eqb ":") v), E; simpl; apply append_empty_r).
    subst a.
    assert (Hb : exists l r, Py.break (Ascii.eqb ":") (String c x) = (String c l, r)).
    { destruct Hc; subst; simpl;
        destruct (Py.break (Ascii.eqb ":") x) as [l r0]; eauto. }
    destruct Hb as [l [r' Hb]]. rewrite Hb.
    assert (Hsc : Py.all_chars scheme_char (v ++ String c l) = false).
    { rewrite all_chars_app. simpl.
      replace (scheme_char c) with false by (destruct Hc; subst; reflexivity).
      now rewrite andb_false_r. }
    destruct (v ++ String c l) as [|a0 t] eqn:Ev.
    + destruct v; discriminate.
    + destruct r' as [|d' rest].
      * destruct v; reflexivity.
      * rewrite Hsc, andb_false_r. destruct v; reflexivity.
  - destruct a as [|a0 t]; [reflexivity|].
    destruct (Py.ascii_alpha a0 && Py.all_chars scheme_char (String a0 t));
      reflexivity.
Qed.

Lemma split_scheme_has_char (c : ascii) (v : string) :
  Py.has_char c v = false -> Py.has_char c (snd (split_scheme v)) = false.
Proof.
  intros H. unfold split_scheme.
  pose proof (has_char_break_snd c (Ascii.eqb ":") v H) as Hb.
  destruct (Py.break (Ascii.eqb ":") v) as [a [|d r]]; [destruct a; exact H|].
  destruct a as [|a0 t]; [exact H|].
  destruct (Py.ascii_alpha a0 && Py.all_chars scheme_char (String a0 t));
    [|exact H].
  simpl in *. now apply orb_false_elim in Hb.
Qed.

Lemma split_netloc_suffix (w : string) (c : ascii) (x : string) :
  suffix_mark c ->
  split_netloc (w ++ String c x)
  = (fst (split_netloc w), snd (split_netloc w) ++ String c x).
Proof.
  intros Hc.
  assert (Hd : netloc_delim c = true) by (destruct Hc; subst; reflexivity).
  assert (Hs : Ascii.eqb c "/" = false) by (destruct Hc; subst; reflexivity).
  destruct w as [|a [|b r]].
  - simpl. destruct Hc; subst; reflexivity.
  - simpl. destruct Hc; subst; destruct (Ascii.eqb_spec a "/"); subst;
      try reflexivity; destruct a as [[] [] [] [] [] [] [] []]; reflexivity.
  - destruct (Ascii.eqb_spec a "/") as [->|Ha];
      [destruct (Ascii.eqb_spec b "/") as [->|Hb]|].
    + change (split_netloc (String "/" (String "/" r) ++ String c x))
        with (Py.break netloc_delim (r ++ String c x)).
      change (split_netloc (String "/" (String "/" r)))
        with (Py.break netloc_delim r).
      rewrite break_app.
      destruct (Py.break netloc_delim r) as [n [|d rest]]; simpl.
      * now rewrite Hd, append_empty_r.
      * reflexivity.
    + simpl. destruct b as [[] [] [] [] [] [] [] []]; try reflexivity.
      now elim Hb.
    + simpl. destruct a as [[] [] [] [] [] [] [] []]; try reflexivity.
      now elim Ha.
Qed.

Lemma split_netloc_has_char (c : ascii) (w : string) :
  Py.has_char c w = false -> Py.has_char c (snd (split_netloc w)) = false.
Proof.
  intros H. destruct w as [|a [|b r]]; [exact H| |].
  { destruct a as [[] [] [] [] [] [] [] []]; exact H. }
  destruct (Ascii.eqb_spec a "/") as [->|Ha];
    [destruct (Ascii.eqb_spec b "/") as [->|Hb]|].
  - change (split_netloc (String "/" (String "/" r)))
      with (Py.break netloc_delim r).
    apply has_char_break_snd. simpl in H.
    apply orb_false_elim in H as [_ H]. now apply orb_false_elim in H as [_ H].
  - simpl. destruct b as [[] [] [] [] [] [] [] []]; try exact H. now elim Hb.
  - simpl. destruct a as [[] [] [] [] [] [] [] []]; try exact H. now elim Ha.
Qed.

Lemma split_fragment_after_query (y x : string) :
  Py.has_char "#" y = false ->
  exists l, fst (split_once "#" (y ++ String "?" x)) = y ++ String "?" l.
Proof.
  intros Hf. unfold split_once. rewrite break_app, (break_none _ _ Hf).
  simpl. destruct (Py.break (Ascii.eqb "#") x) as [l [|d rest]]; simpl; eauto.
Qed.

(** The text left as the path once fragment and query are cut off. *)
Lemma cut_fragment_query (y : string) (c : ascii) (x : string) :
  suffix_mark c ->
  Py.has_char "?" y = false -> Py.has_char "#" y = false ->
  fst (split_once "?" (fst (split_once "#" (y ++ String c x)))) = y.
Proof.
  intros [->| ->] Hq Hf.
  - destruct (split_fragment_after_query y x Hf) as [l ->].
    now rewrite split_once_first.
  - rewrite split_once_first by exact Hf. simpl.
    now rewrite split_once_none.
Qed.

(** Whatever follows the first [?] or [#] of a link has no part in its
    scheme, host and path. *)
Lemma urlparse_suffix (u : string) (c : ascii) (x : string) :
  suffix_mark c ->
  Py.has_char "?" u = false -> Py.has_char "#" u = false ->
  same_identity (urlparse u) (urlparse (u ++ String c x)).
Proof.
  intros Hc Hq Hf. unfold urlparse.
  rewrite lstrip_app_keep by (destruct Hc; subst; reflexivity).
  rewrite remove_app.
  replace (Py.remove unsafe_url_byte (String c x))
    with (String c (Py.remove unsafe_url_byte x))
    by (destruct Hc; subst; reflexivity).
  set (v := Py.remove unsafe_url_byte (Py.lstrip c0_control_or_space u)).
  assert (Hvq : Py.has_char "?" v = false)
    by (apply has_char_remove, has_char_lstrip, Hq).
  assert (Hvf : Py.has_char "#" v = false)
    by (apply has_char_remove, has_char_lstrip, Hf).
  rewrite split_scheme_suffix by exact Hc.
  pose proof (split_scheme_has_char "?" v Hvq) as Hwq.
  pose proof (split_scheme_has_char "#" v Hvf) as Hwf.
  destruct (split_scheme v) as [sch w]. cbn [fst snd] in *.
  rewrite split_netloc_suffix by exact Hc.
  pose proof (split_netloc_has_char "?" w Hwq) as Hyq.
  pose proof (split_netloc_has_char "#" w Hwf) as Hyf.
  destruct (split_netloc w) as [loc y]. cbn [fst snd] in *.
  destruct (check_netloc loc) as [[]|e]; cbn [bind]; [|reflexivity].
  pose proof (cut_fragment_query y c (Py.remove unsafe_url_byte x) Hc Hyq Hyf)
    as Hcut.
  destruct (split_once "#" (y ++ String c (Py.remove unsafe_url_byte x)))
    as [u5 frag]. cbn [fst] in Hcut.
  destruct (split_once "?" u5) as [u6 qry]. cbn [fst] in Hcut. subst u6.
  rewrite (split_once_none "#" y Hyf), (split_once_none "?" y Hyq).
  destruct (if existsb (String.eqb sch) uses_params && Py.has_char ";" y
            then splitparams y else (y, EmptyString)) as [u7 prm].
  repeat split.
Qed.

Lemma normalize_link_suffix (u : string) (c : ascii) (x : string) :
  suffix_mark c ->
  Py.has_char "?" u = false -> Py.has_char "#" u = false ->
  normalize_link (u ++ String c x) = normalize_link u.
Proof.
  intros Hc Hq Hf. pose proof (urlparse_suffix u c x Hc Hq Hf) as H.
  unfold normalize_link, same_identity in *.
  destruct (urlparse u) as [p|e], (urlparse (u ++ String c x)) as [p'|e'];
    cbn [bind]; try contradiction.
  - destruct H as [-> [-> ->]]. reflexivity.
  - now subst.
Qed.

Lemma normalize_telegram_channel_suffix (u : string) (c : ascii) (x : string) :
  suffix_mark c ->
  Py.has_char "?" u = false -> Py.has_char "#" u = false ->
  normalize_telegram_channel (u ++ String c x) = normalize_telegram_channel u.
Proof.
  intros Hc Hq Hf. pose proof (urlparse_suffix u c x Hc Hq Hf) as H.
  unfold normalize_telegram_channel, same_identity in *.
  destruct (urlparse u) as [p|e], (urlparse (u ++ String c x)) as [p'|e'];
    cbn [bind]; try contradiction.
  - destruct H as [-> [-> ->]]. reflexivity.
  - now subst.
Qed.

(** The stripped path: what is left of the path without its trailing
    slashes. *)
Lemma general_form_spec (p : ParseResult) :
  exists stripped k,
    path p = stripped ++ slashes k
    /\ ends_with "/" stripped = false
    /\ general_form p = scheme p ++ "://" ++ netloc p ++ stripped.
Proof.
  destruct (rstrip_slashes (path p)) as [k Hk].
  exists (Py.rstrip "/" (path p)), k.
  split; [exact Hk|]. split; [apply rstrip_not_ends_with|reflexivity].
Qed.

(** Outside the collapsing rule every link takes the general form. *)
Lemma general_rule_applies (link : string) (p : ParseResult) :
  urlparse link = Ok p ->
  Py.contains "t.me" link = false
  \/ has_special_prefix (path p) = true
  \/ netloc p <> "t.me"
  \/ (forall second, nth_error (Py.split "/" (path p)) 2 = Some second ->
                     Py.isdigit second = false) ->
  normalized_of link = Ok (general_form p).
Proof.
  intros Hp H. unfold normalized_of.
  destruct (Py.contains "t.me" link) eqn:Et.
  - destruct H as [H|[H|[H|H]]]; [discriminate| | |].
    + now apply special_prefix_keeps_path.
    + unfold normalize_telegram_channel. rewrite Hp. cbn [bind].
      apply String.eqb_neq in H. rewrite H. cbn [andb].
      destruct (existsb _ special_prefixes); reflexivity.
    + unfold normalize_telegram_channel. rewrite Hp. cbn [bind].
      destruct (existsb _ special_prefixes); [reflexivity|].
      destruct (_ && Py.contains "/" _); [|reflexivity].
      destruct (3 <=? _)%nat eqn:E3; [|reflexivity].
      apply Nat.leb_le in E3.
      destruct (nth_error (Py.split "/" (Py.rstrip "/" (path p))) 2)
        as [second|] eqn:E2; [|apply nth_error_None in E2; lia].
      rewrite (nth_error_nth_default _ _ _ EmptyString E2).
      destruct (Py.isdigit second) eqn:Ed; [|reflexivity].
      destruct (split_rstrip "/" (path p)) as [k Hk].
      rewrite (H second) in Ed; [discriminate|].
      rewrite Hk, nth_error_app1 by lia. exact E2.
  - unfold normalize_link. now rewrite Hp.
Qed.

(** ** The loop over the candidates *)

Lemma first_new_ext (f g : string -> bool) (l : list (string * string)) :
  (forall x, f x = g x) -> first_new f l = first_new g l.
Proof.
  revert f g; induction l as [|[c raw] l IH]; intros f g H; simpl.
  - reflexivity.
  - rewrite <- (H c). destruct (f c); [now apply IH|].
    f_equal. apply IH. intros x. now rewrite H.
Qed.

Lemma first_new_in (seen : string -> bool) (l : list (string * string))
    (c : string) :
  In c (map fst (first_new seen l)) <-> In c (map fst l) /\ seen c = false.
Proof.
  revert seen; induction l as [|[c0 raw] l IH]; intros seen; simpl.
  - tauto.
  - destruct (seen c0) eqn:E0; simpl; rewrite IH.
    + intuition (subst; congruence).
    + destruct (String.eqb_spec c c0) as [->|Hne].
      * rewrite orb_true_r. intuition congruence.
      * rewrite orb_false_r. intuition congruence.
Qed.

Lemma first_new_nodup (seen : string -> bool) (l : list (string * string)) :
  NoDup (map fst (first_new seen l)).
Proof.
  revert seen; induction l as [|[c0 raw] l IH]; intros seen; simpl.
  - constructor.
  - destruct (seen c0); [apply IH|]. simpl. constructor; [|apply IH].
    rewrite first_new_in. rewrite String.eqb_refl, orb_true_r.
    intros [_ H]; discriminate.
Qed.

Lemma first_new_all_seen (seen : string -> bool) (l : list (string * string)) :
  (forall c, In c (map fst l) -> seen c = true) -> first_new seen l = [].
Proof.
  induction l as [|[c0 raw] l IH]; intros H; simpl; [reflexivity|].
  rewrite (H c0) by now left. apply IH. intros c Hc. apply H. now right.
Qed.

(** As many as there are distinct unseen canonical links. *)
Lemma first_new_length (seen : string -> bool) (l : list (string * string)) :
  List.length (first_new seen l)
  = List.length (nodup string_dec
                   (filter (fun c => negb (seen c)) (map fst l))).
Proof.
  rewrite <- (length_map fst (first_new seen l)).
  apply Permutation_length, NoDup_Permutation.
  - apply first_new_nodup.
  - apply NoDup_nodup.
  - intros c. rewrite first_new_in, nodup_In, filter_In, negb_true_iff.
    tauto.
Qed.

Lemma stored_spec (g : Z) (t : list Row) (c : string) :
  stored g t c = true <-> In (c, g) (map key t).
Proof.
  unfold stored. rewrite existsb_exists, in_map_iff. unfold key.
  split.
  - intros [r [Hin H]]. apply andb_prop in H as [Hc Hg].
    apply String.eqb_eq in Hc. apply Z.eqb_eq in Hg.
    exists r. split; [congruence|exact Hin].
  - intros [r [Hk Hin]]. exists r. split; [exact Hin|].
    injection Hk as -> ->. now rewrite String.eqb_refl, Z.eqb_refl.
Qed.

Lemma stored_app (g : Z) (t u : list Row) (c : string) :
  stored g (t ++ u) c = stored g t c || stored g u c.
Proof. unfold stored. apply existsb_app. Qed.

Lemma canonical_links_length (links cs : list string) :
  canonical_links links = Ok cs -> List.length cs = List.length links.
Proof.
  revert cs; induction links as [|l links IH]; intros cs H; simpl in H.
  - now injection H as <-.
  - destruct (normalized_of l); [|discriminate]. cbn [bind] in H.
    destruct (canonical_links links) as [cs'|]; [|discriminate].
    injection H as <-. simpl. now rewrite (IH cs').
Qed.

Lemma next_fault_frame (w : World) :
  db (snd (next_fault w)) = db w
  /\ trace (snd (next_fault w)) = trace w
  /\ (no_fault w -> fst (next_fault w) = false /\ no_fault (snd (next_fault w))).
Proof.
  unfold next_fault, no_fault. destruct (faults w) as [|f fs] eqn:E; simpl.
  - rewrite E. auto.
  - repeat split; auto; simpl in H; apply andb_prop in H as [Hf Hfs];
      [now destruct f|exact Hfs].
Qed.

(** What a completed loop has done: the rows it appended are the first
    occurrences of the canonical links the table did not hold, and only the
    connection has seen them. *)
Lemma insert_each_ok (links : list string) (chat : Chat) (sender : option User) :
  forall conn k w w' conn' k',
    insert_each links chat sender conn k w = (w', Ok (conn', k')) ->
    exists cs added,
      canonical_links links = Ok cs
      /\ rows conn' = (rows conn ++ added)%list
      /\ map (fun r => (normalized_link r, original_link r)) added
         = first_new (stored (chat_id chat) (rows conn)) (combine cs links)
      /\ Forall (fun r => group_id r = chat_id chat) added
      /\ k' = k + List.length added
      /\ db w' = db w /\ trace w' = trace w.
Proof.
  induction links as [|link rest IH]; intros conn k w w' conn' k' H.
  - injection H as <- <- <-. exists [], []. rewrite app_nil_r.
    repeat split; auto.
  - cbn [insert_each] in H.
    destruct (normalized_of link) as [c|e] eqn:Ec; [|discriminate].
    unfold utcnow in H. destruct sender as [s|]; [|discriminate].
    set (w1 := mkWorld (db w) (clock w + 1) (faults w) (trace w)) in H.
    destruct (next_fault_frame w1) as [Hdb [Htr _]].
    destruct (next_fault w1) as [fault w2]. cbn [fst snd] in *.
    subst w1. cbn [db trace] in Hdb, Htr.
    unfold execute_insert in H. destruct fault; [discriminate|].
    destruct (stored (chat_id chat) (rows conn) c) eqn:Es.
    + apply IH in H as [cs [added [Hcs [Hrows [Hnew [Hg [Hk [Hd Ht]]]]]]]].
      exists (c :: cs), added. cbn [canonical_links combine first_new].
      rewrite Ec, Hcs, Es. cbn [bind].
      repeat split; auto; congruence.
    + apply IH in H as [cs [added [Hcs [Hrows [Hnew [Hg [Hk [Hd Ht]]]]]]]].
      cbn [rows] in Hrows, Hnew.
      match type of Hrows with
      | _ = ((_ ++ [?r]) ++ _)%list => exists (c :: cs), (r :: added)
      end.
      cbn [canonical_links combine first_new].
      rewrite Ec, Hcs, Es. cbn [bind].
      repeat split.
      * now rewrite Hrows, <- app_assoc.
      * cbn [map normalized_link original_link]. f_equal.
        rewrite Hnew. apply first_new_ext. intros x.
        rewrite stored_app. f_equal. unfold stored. cbn.
        now rewrite Z.eqb_refl, andb_true_r, orb_false_r, String.eqb_sym.
      * constructor; [reflexivity|exact Hg].
      * cbn [List.length]. lia.
      * congruence.
      * congruence.
Qed.

(** A loop that meets no failing link, no missing sender and no storage
    fault completes. *)
Lemma insert_each_total (links cs : list string) (chat : Chat)
    (sender : option User) :
  canonical_links links = Ok cs ->
  (links = [] \/ exists s, sender = Some s) ->
  forall conn k w, no_fault w ->
    exists w' conn' k',
      insert_each links chat sender conn k w = (w', Ok (conn', k'))
      /\ no_fault w'.
Proof.
  revert cs; induction links as [|link rest IH]; intros cs Hcs Hs conn k w Hw.
  - exists w, conn, k. now split.
  - destruct Hs as [Hs|[s ->]]; [discriminate|].
    cbn [canonical_links] in Hcs.
    destruct (normalized_of link) as [c|e] eqn:Ec; [|discriminate].
    cbn [bind] in Hcs.
    destruct (canonical_links rest) as [cs'|] eqn:Ecs; [|discriminate].
    cbn [insert_each]. rewrite Ec. unfold utcnow.
    set (w1 := mkWorld (db w) (clock w + 1) (faults w) (trace w)).
    destruct (next_fault_frame w1) as [_ [_ Hf]].
    destruct (Hf Hw) as [Hfalse Hw2].
    destruct (next_fault w1) as [fault w2]. cbn [fst snd] in *. subst fault.
    unfold execute_insert.
    destruct (stored (chat_id chat) (rows conn) c);
      eapply IH; eauto.
Qed.

Lemma insert_each_frame (links : list string) (chat : Chat)
    (sender : option User) :
  forall conn k w,
    db (fst (insert_each links chat sender conn k w)) = db w
    /\ trace (fst (insert_each links chat sender conn k w)) = trace w.
Proof.
  induction links as [|link rest IH]; intros conn k w; [now split|].
  cbn [insert_each].
  destruct (normalized_of link) as [c|e]; [|now split].
  unfold utcnow. destruct sender as [s|]; [|now split].
  set (w1 := mkWorld (db w) (clock w + 1) (faults w) (trace w)).
  destruct (next_fault_frame w1) as [Hdb [Htr _]].
  destruct (next_fault w1) as [fault w2]. cbn [fst snd] in *.
  subst w1. cbn [db trace] in Hdb, Htr. rewrite <- Hdb, <- Htr.
  destruct (execute_insert _ _ _ _ _ _ _ _) as [conn2|[]];
    try (destruct (IH conn2 (S k) w2) as [-> ->]; now split);
    try (destruct (IH conn k w2) as [-> ->]; now split);
    now split.
Qed.

(** ** One call of [save_links_to_db] *)

Lemma open_connections_app (t u : list Event) :
  open_connections (t ++ u)%list
  = (open_connections t + open_connections u)%Z.
Proof.
  induction t as [|e t IH]; simpl; [reflexivity|].
  destruct e; rewrite IH; lia.
Qed.

Lemma save_ok (links : list string) (chat : Chat) (sender : option User)
    (w w' : World) (n : nat) :
  save_links_to_db links chat sender w = (w', Ok n) ->
  exists cs added,
    canonical_links links = Ok cs
    /\ rows (db w') = (rows (db w) ++ added)%list
    /\ map (fun r => (normalized_link r, original_link r)) added
       = first_new (stored (chat_id chat) (rows (db w))) (combine cs links)
    /\ Forall (fun r => group_id r = chat_id chat) added
    /\ n = List.length added
    /\ trace w' = (trace w ++ [Connect; Commit; Close])%list.
Proof.
  unfold save_links_to_db. intros H.
  destruct (insert_each links chat sender (db (log Connect w)) 0 (log Connect w))
    as [w1 [[conn k]|e]] eqn:E; [|discriminate].
  injection H as <- <-.
  apply insert_each_ok in E
    as [cs [added [Hcs [Hrows [Hnew [Hg [Hk [Hd Ht]]]]]]]].
  exists cs, added. cbn [log db trace commit] in *.
  repeat split; auto.
  now rewrite Ht, <- !app_assoc.
Qed.

Lemma save_raise (links : list string) (chat : Chat) (sender : option User)
    (w w' : World) (e : exn) :
  save_links_to_db links chat sender w = (w', Raise e) ->
  db w' = db w /\ trace w' = (trace w ++ [Connect])%list.
Proof.
  unfold save_links_to_db. intros H.
  pose proof (insert_each_frame links chat sender (db (log Connect w)) 0
                (log Connect w)) as [Hd Ht].
  destruct (insert_each links chat sender (db (log Connect w)) 0 (log Connect w))
    as [w1 [[conn k]|e1]]; [discriminate|].
  injection H as <- <-. cbn [fst log db trace] in *. now split.
Qed.

Lemma save_total (links cs : list string) (chat : Chat) (sender : option User)
    (w : World) :
  canonical_links links = Ok cs ->
  (links = [] \/ exists s, sender = Some s) ->
  no_fault w ->
  exists w' n, save_links_to_db links chat sender w = (w', Ok n) /\ no_fault w'.
Proof.
  intros Hcs Hs Hw. unfold save_links_to_db.
  destruct (insert_each_total links cs chat sender Hcs Hs
              (db (log Connect w)) 0 (log Connect w) Hw)
    as [w1 [conn [k [E Hw1]]]].
  rewrite E. exists (log Close (commit conn w1)), k. split; [reflexivity|].
  exact Hw1.
Qed.

Lemma save_ok_sender (links : list string) (chat : Chat) (sender : option User)
    (w w' : World) (n : nat) :
  save_links_to_db links chat sender w = (w', Ok n) ->
  links = [] \/ exists s, sender = Some s.
Proof.
  destruct links as [|link rest]; [now left|].
  destruct sender as [s|]; [right; eauto|].
  unfold save_links_to_db. cbn [insert_each].
  destruct (normalized_of link); discriminate.
Qed.

Lemma records_of_all (g : Z) (t : list Row) :
  Forall (fun r => group_id r = g) t -> records_of g t = t.
Proof.
  induction 1 as [|r t Hr _ IH]; simpl; [reflexivity|].
  now rewrite Hr, Z.eqb_refl, IH.
Qed.

Lemma combine_fst (cs links : list string) :
  List.length cs = List.length links -> map fst (combine cs links) = cs.
Proof.
  revert links; induction cs as [|c cs IH]; intros [|l links] H;
    simpl in *; try discriminate; [reflexivity|].
  f_equal. apply IH. lia.
Qed.

(** After a completed call every canonical link of the batch is stored for
    the group. *)
Lemma save_stores_all (links cs : list string) (chat : Chat)
    (t added : list Row) :
  List.length cs = List.length links ->
  map (fun r => (normalized_link r, original_link r)) added
  = first_new (stored (chat_id chat) t) (combine cs links) ->
  Forall (fun r => group_id r = chat_id chat) added ->
  forall c, In c cs -> stored (chat_id chat) (t ++ added)%list c = true.
Proof.
  intros Hlen Hnew Hg c Hc. rewrite stored_app.
  destruct (stored (chat_id chat) t c) eqn:Es; [reflexivity|]. simpl.
  assert (Hin : In c (map fst (first_new (stored (chat_id chat) t)
                                 (combine cs links)))).
  { apply first_new_in. now rewrite combine_fst. }
  rewrite <- Hnew, map_map in Hin. cbn [fst] in Hin.
  apply in_map_iff in Hin as [r [Hr Hin]].
  apply stored_spec, in_map_iff. exists r. split; [|exact Hin].
  unfold key. rewrite Forall_forall in Hg. now rewrite Hr, (Hg r Hin).
Qed.

(** ** The store *)

Lemma map_pair_nil {A B : Type} (f : A -> B) (l : list A) :
  map f l = [] -> l = [].
Proof. destruct l; [reflexivity|discriminate]. Qed.

Lemma unique_pairs_append (g : Z) (t added : list Row)
    (cands : list (string * string)) :
  unique_pairs t ->
  map (fun r => (normalized_link r, original_link r)) added
  = first_new (stored g t) cands ->
  Forall (fun r => group_id r = g) added ->
  unique_pairs (t ++ added)%list.
Proof.
  intros Ht Hnew Hg. unfold unique_pairs. rewrite map_app.
  assert (Hkeys : map key added
                  = map (fun c => (c, g)) (map fst (first_new (stored g t) cands))).
  { rewrite <- Hnew, !map_map. apply map_ext_in. intros r Hr.
    rewrite Forall_forall in Hg. unfold key. now rewrite (Hg r Hr). }
  apply NoDup_app; [exact Ht| |].
  - rewrite Hkeys. apply Finite.Injective_map_NoDup; [|apply first_new_nodup].
    intros x y E. now injection E.
  - intros k Hk Hk'. rewrite Hkeys in Hk'.
    apply in_map_iff in Hk' as [c [<- Hc]].
    apply first_new_in in Hc as [_ Hc].
    apply stored_spec in Hk. congruence.
Qed.

(** C10. Duplicates inside one batch collapse: a completed call appends one
    row per distinct canonical link that the group did not hold, the row of
    its first candidate, and returns their number; two candidates with one
    canonical link make one row, of the first. *)
Theorem batch_duplicates_collapse :
  (forall links chat sender w w' n,
      save_links_to_db links chat sender w = (w', Ok n) ->
      exists cs added,
        canonical_links links = Ok cs
        /\ rows (db w') = (rows (db w) ++ added)%list
        /\ n = List.length added
        /\ n = List.length
                 (nodup string_dec
                    (filter (fun c => negb (stored (chat_id chat) (rows (db w)) c))
                       cs))
        /\ NoDup (map normalized_link added)
        /\ map (fun r => (normalized_link r, original_link r)) added
           = first_new (stored (chat_id chat) (rows (db w))) (combine cs links))
  /\ (forall a b c chat s w,
        no_fault w ->
        normalized_of a = Ok c -> normalized_of b = Ok c ->
        stored (chat_id chat) (rows (db w)) c = false ->
        exists w' r,
          save_links_to_db [a; b] chat (Some s) w = (w', Ok 1)
          /\ rows (db w') = (rows (db w) ++ [r])%list
          /\ normalized_link r = c /\ original_link r = a
          /\ group_id r = chat_id chat).
Proof.
  split.
  - intros links chat sender w w' n H.
    destruct (save_ok _ _ _ _ _ _ H)
      as [cs [added [Hcs [Hrows [Hnew [Hg [Hn Ht]]]]]]].
    exists cs, added. repeat split; auto.
    + rewrite Hn, <- (length_map (fun r => (normalized_link r, original_link r))),
        Hnew, first_new_length.
      now rewrite combine_fst by now apply canonical_links_length.
    + replace (map normalized_link added)
        with (map fst (map (fun r => (normalized_link r, original_link r)) added))
        by (rewrite map_map; reflexivity).
      rewrite Hnew. apply first_new_nodup.
  - intros a b c chat s w Hw Ha Hb Hs.
    assert (Hcs : canonical_links [a; b] = Ok [c; c])
      by (cbn [canonical_links]; now rewrite Ha, Hb).
    destruct (save_total [a; b] [c; c] chat (Some s) w Hcs) as [w' [n [H _]]];
      [right; eauto|exact Hw|].
    destruct (save_ok _ _ _ _ _ _ H)
      as [cs [added [Hcs' [Hrows [Hnew [Hg [Hn Ht]]]]]]].
    rewrite Hcs in Hcs'. injection Hcs' as <-.
    cbn [combine first_new] in Hnew.
    rewrite Hs, String.eqb_refl, orb_true_r in Hnew.
    destruct added as [|r [|r' added]]; try discriminate Hnew.
    injection Hnew as Hc Ho. subst n.
    exists w', r. inversion Hg; subst. repeat split; auto.
Qed.

(** C2. Saving the same batch for the same group twice: when the first call,
    on an empty table, returns [n], the second returns 0 and leaves the
    table as it is, with [n] records of the group. *)
Theorem save_twice_is_idempotent :
  forall links chat sender w w1 n,
    rows (db w) = [] ->
    no_fault w ->
    save_links_to_db links chat sender w = (w1, Ok n) ->
    exists w2,
      save_links_to_db links chat sender w1 = (w2, Ok 0)
      /\ rows (db w2) = rows (db w1)
      /\ List.length (records_of (chat_id chat) (rows (db w2))) = n.
Proof.
  intros links chat sender w w1 n Hempty Hw H.
  destruct (save_ok _ _ _ _ _ _ H)
    as [cs [added [Hcs [Hrows [Hnew [Hg [Hn Ht]]]]]]].
  pose proof (save_ok_sender _ _ _ _ _ _ H) as Hs.
  destruct (save_total links cs chat sender w Hcs Hs Hw) as [w1' [n' [H' Hw1]]].
  rewrite H in H'. injection H' as <- <-.
  destruct (save_total links cs chat sender w1 Hcs Hs Hw1) as [w2 [m [H2 _]]].
  destruct (save_ok _ _ _ _ _ _ H2)
    as [cs2 [added2 [Hcs2 [Hrows2 [Hnew2 [Hg2 [Hm Ht2]]]]]]].
  rewrite Hcs in Hcs2. injection Hcs2 as <-.
  pose proof (canonical_links_length _ _ Hcs) as Hlen.
  rewrite first_new_all_seen in Hnew2.
  - apply map_pair_nil in Hnew2. subst added2. simpl in Hm. subst m.
    rewrite app_nil_r in Hrows2.
    exists w2. repeat split; [exact H2|exact Hrows2|].
    rewrite Hrows2, Hrows, Hempty. cbn [app].
    now rewrite records_of_all.
  - intros c Hc. rewrite combine_fst in Hc by exact Hlen.
    rewrite Hrows. now apply (save_stores_all links cs chat _ added).
Qed.

(** C1. No two records share canonical link and group: every call keeps the
    pairs of the table distinct; a candidate whose pair is stored adds
    nothing; one link saved for two groups makes two records. *)
Theorem canonical_group_pair_unique :
  (forall links chat sender w,
      unique_pairs (rows (db w)) ->
      unique_pairs (rows (db (fst (save_links_to_db links chat sender w)))))
  /\ (forall link c chat s w,
        no_fault w ->
        normalized_of link = Ok c ->
        In (c, chat_id chat) (map key (rows (db w))) ->
        exists w',
          save_links_to_db [link] chat (Some s) w = (w', Ok 0)
          /\ rows (db w') = rows (db w))
  /\ (forall link c chat1 chat2 s1 s2 w,
        no_fault w ->
        normalized_of link = Ok c ->
        chat_id chat1 <> chat_id chat2 ->
        ~ In (c, chat_id chat1) (map key (rows (db w))) ->
        ~ In (c, chat_id chat2) (map key (rows (db w))) ->
        exists w1 w2 r1 r2,
          save_links_to_db [link] chat1 (Some s1) w = (w1, Ok 1)
          /\ save_links_to_db [link] chat2 (Some s2) w1 = (w2, Ok 1)
          /\ rows (db w2) = (rows (db w) ++ [r1; r2])%list
          /\ key r1 = (c, chat_id chat1)
          /\ key r2 = (c, chat_id chat2)
          /\ r1 <> r2).
Proof.
  split; [|split].
  - intros links chat sender w Hu.
    destruct (save_links_to_db links chat sender w) as [w' [n|e]] eqn:H;
      cbn [fst].
    + destruct (save_ok _ _ _ _ _ _ H)
        as [cs [added [Hcs [Hrows [Hnew [Hg [Hn Ht]]]]]]].
      rewrite Hrows. eapply unique_pairs_append; eauto.
    + apply save_raise in H as [-> _]. exact Hu.
  - intros link c chat s w Hw Hc Hin.
    assert (Hcs : canonical_links [link] = Ok [c])
      by (cbn [canonical_links]; now rewrite Hc).
    destruct (save_total [link] [c] chat (Some s) w Hcs) as [w' [n [H _]]];
      [right; eauto|exact Hw|].
    destruct (save_ok _ _ _ _ _ _ H)
      as [cs [added [Hcs' [Hrows [Hnew [Hg [Hn Ht]]]]]]].
    rewrite Hcs in Hcs'. injection Hcs' as <-.
    apply stored_spec in Hin. cbn [combine first_new] in Hnew.
    rewrite Hin in Hnew. apply map_pair_nil in Hnew. subst added n.
    rewrite app_nil_r in Hrows. exists w'. now split.
  - intros link c chat1 chat2 s1 s2 w Hw Hc Hne Hn1 Hn2.
    assert (Hcs : canonical_links [link] = Ok [c])
      by (cbn [canonical_links]; now rewrite Hc).
    destruct (save_total [link] [c] chat1 (Some s1) w Hcs) as [w1 [n1 [H1 Hw1]]];
      [right; eauto|exact Hw|].
    destruct (save_total [link] [c] chat2 (Some s2) w1 Hcs) as [w2 [n2 [H2 _]]];
      [right; eauto|exact Hw1|].
    destruct (save_ok _ _ _ _ _ _ H1)
      as [cs1 [a1 [Hcs1 [Hrows1 [Hnew1 [Hg1 [Hk1 _]]]]]]].
    destruct (save_ok _ _ _ _ _ _ H2)
      as [cs2 [a2 [Hcs2 [Hrows2 [Hnew2 [Hg2 [Hk2 _]]]]]]].
    rewrite Hcs in Hcs1, Hcs2. injection Hcs1 as <-. injection Hcs2 as <-.
    cbn [combine first_new] in Hnew1, Hnew2.
    assert (E1 : stored (chat_id chat1) (rows (db w)) c = false).
    { apply not_true_is_false. intros E. now apply stored_spec in E. }
    assert (E2 : stored (chat_id chat2) (rows (db w1)) c = false).
    { apply not_true_is_false. intros E. apply stored_spec in E.
      rewrite Hrows1, map_app, in_app_iff in E. destruct E as [E|E]; [tauto|].
      apply in_map_iff in E as [r [Hr Hin]].
      rewrite Forall_forall in Hg1. specialize (Hg1 r Hin).
      unfold key in Hr. injection Hr as _ Hr. congruence. }
    rewrite E1 in Hnew1. rewrite E2 in Hnew2.
    destruct a1 as [|r1 [|r1' a1]]; try discriminate Hnew1.
    destruct a2 as [|r2 [|r2' a2]]; try discriminate Hnew2.
    injection Hnew1 as Hc1 _. injection Hnew2 as Hc2 _.
    inversion Hg1 as [|? ? Hgr1 _]; subst.
    inversion Hg2 as [|? ? Hgr2 _]; subst.
    exists w1, w2, r1, r2. unfold key.
    split; [exact H1|]. split; [exact H2|]. split; [|split; [|split]].
    + rewrite Hrows2, Hrows1, <- app_assoc. reflexivity.
    + congruence.
    + congruence.
    + intros E. subst r2. congruence.
Qed.

(** C8, as the code has it. A call that completes, whether its candidates
    were inserted or skipped as duplicates, has committed and closed the
    connection it opened: no connection stays open. *)
Theorem connection_released_on_completion :
  forall links chat sender w w' n,
    save_links_to_db links chat sender w = (w', Ok n) ->
    trace w' = (trace w ++ [Connect; Commit; Close])%list
    /\ open_connections (trace w') = open_connections (trace w).
Proof.
  intros links chat sender w w' n H.
  destruct (save_ok _ _ _ _ _ _ H)
    as [cs [added [_ [_ [_ [_ [_ Ht]]]]]]].
  split; [exact Ht|].
  rewrite Ht, open_connections_app. simpl. lia.
Qed.

Lemma short_path_no_second (s second : string) :
  List.length (Py.split "/" (Py.rstrip "/" s)) < 3 ->
  nth_error (Py.split "/" s) 2 = Some second ->
  Py.isdigit second = false.
Proof.
  intros Hlen H. destruct (split_rstrip "/" s) as [k Hk].
  rewrite Hk, nth_error_app2 in H by lia.
  apply nth_error_repeat_some in H. now subst.
Qed.

Lemma long_path_segment (s : string) (n : nat) :
  n < List.length (Py.split "/" (Py.rstrip "/" s)) ->
  nth_error (Py.split "/" s) n
  = Some (nth n (Py.split "/" (Py.rstrip "/" s)) "").
Proof.
  intros Hlen. destruct (split_rstrip "/" s) as [k Hk].
  rewrite Hk, nth_error_app1 by exact Hlen. now apply nth_error_nth'.
Qed.

Lemma normalized_is_canonical (link c : string) :
  normalized_of link = Ok c -> is_canonical_of link c.
Proof.
  unfold normalized_of, is_canonical_of.
  destruct (Py.contains "t.me" link) eqn:Et.
  - destruct (urlparse link) as [p|e] eqn:Hp;
      [|unfold normalize_telegram_channel; rewrite Hp; discriminate].
    intros H. exists p. split; [reflexivity|].
    destruct (has_special_prefix (path p)) eqn:Es.
    + rewrite (special_prefix_keeps_path link p Hp Es) in H.
      injection H as <-. left. split; [reflexivity|auto].
    + unfold normalize_telegram_channel in H. rewrite Hp in H. cbn [bind] in H.
      pose proof (has_special_prefix_rstrip _ Es) as Hs.
      unfold has_special_prefix in Hs. rewrite Hs in H.
      destruct (String.eqb_spec (netloc p) "t.me") as [En|En]; cbn [andb] in H;
        [|injection H as <-; left; split; [reflexivity|auto]].
      destruct (Nat.lt_ge_cases
                  (List.length (Py.split "/" (Py.rstrip "/" (path p)))) 3)
        as [Hshort|Hlong].
      * assert (Hg : c = scheme p ++ "://" ++ netloc p
                         ++ Py.rstrip "/" (path p)).
        { destruct (Py.contains "/" (Py.tail (Py.rstrip "/" (path p))));
            [|now injection H as <-].
          apply Nat.leb_gt in Hshort. rewrite Hshort in H.
          now injection H as <-. }
        left. split; [exact Hg|]. right. right. right.
        intros second. now apply short_path_no_second.
      * rewrite contains_tail_split in H by exact Hlong.
        pose proof Hlong as E3. apply Nat.leb_le in E3. rewrite E3 in H.
        cbn [andb] in H.
        destruct (Py.isdigit (nth 2 (Py.split "/" (Py.rstrip "/" (path p))) ""))
          eqn:Ed; injection H as <-.
        -- right. split; [reflexivity|]. split; [reflexivity|].
           split; [exact En|].
           exists (nth 1 (Py.split "/" (Py.rstrip "/" (path p))) ""),
             (nth 2 (Py.split "/" (Py.rstrip "/" (path p))) "").
           rewrite !long_path_segment by lia. auto.
        -- left. split; [reflexivity|]. right. right. right.
           intros second. rewrite long_path_segment by lia.
           intros E; injection E as <-. exact Ed.
  - unfold normalize_link.
    destruct (urlparse link) as [p|e]; cbn [bind]; [|discriminate].
    intros H. injection H as <-. exists p. split; [reflexivity|].
    left. split; [reflexivity|auto].
Qed.

Lemma canonical_links_each (links cs : list string) :
  canonical_links links = Ok cs ->
  Forall2 (fun link c =>
             (if Py.contains "t.me" link
              then normalize_telegram_channel link
              else normalize_link link) = Ok c
             /\ is_canonical_of link c)
    links cs.
Proof.
  revert cs; induction links as [|l links IH]; intros cs H; simpl in H.
  - injection H as <-. constructor.
  - destruct (normalized_of l) as [c|] eqn:Ec; [|discriminate].
    cbn [bind] in H.
    destruct (canonical_links links) as [cs'|]; [|discriminate].
    injection H as <-. constructor; [|now apply IH].
    split; [exact Ec|now apply normalized_is_canonical].
Qed.

(** C7. The handler: a message without links leaves the world as it is (no
    connection, no line); otherwise the whole list goes to the store, and
    the line with the count and the group is printed exactly when the
    returned count is not zero.  What the store takes in is the normalised
    list: for every link of the message, in order, its canonical link (by
    the telegram rule when the link contains [t.me], by the general rule
    otherwise, a normal form of the link in either case), and the rows it
    appends are those of the first new canonical links, as many as it
    counts. *)
Theorem handler_effects :
  forall message chat sender w,
    handle_all_messages None chat sender w = (w, Ok tt)
    /\ (extract_all_links_from_message message = [] ->
        handle_all_messages (Some message) chat sender w = (w, Ok tt))
    /\ (extract_all_links_from_message message <> [] ->
        forall w1 r,
          save_links_to_db (extract_all_links_from_message message)
            chat sender w = (w1, r) ->
          handle_all_messages (Some message) chat sender w
          = match r with
            | Raise e => (w1, Raise e)
            | Ok O => (w1, Ok tt)
            | Ok (S m) =>
                (log (Print (SavedLine (S m) (chat_id chat) (title chat))) w1,
                 Ok tt)
            end)
    /\ (forall w1 n,
          save_links_to_db (extract_all_links_from_message message)
            chat sender w = (w1, Ok n) ->
          exists cs added,
            Forall2 (fun link c =>
                       (if Py.contains "t.me" link
                        then normalize_telegram_channel link
                        else normalize_link link) = Ok c
                       /\ is_canonical_of link c)
              (extract_all_links_from_message message) cs
            /\ rows (db w1) = (rows (db w) ++ added)%list
            /\ map (fun r => (normalized_link r, original_link r)) added
               = first_new (stored (chat_id chat) (rows (db w)))
                   (combine cs (extract_all_links_from_message message))
            /\ Forall (fun r => group_id r = chat_id chat) added
            /\ n = List.length added).
Proof.
  intros message chat sender w. split; [reflexivity|]. split; [|split].
  - intros H. unfold handle_all_messages. now rewrite H.
  - intros Hne w1 r H. unfold handle_all_messages.
    destruct (extract_all_links_from_message message) as [|l ls] eqn:E;
      [congruence|].
    rewrite H. destruct r as [[|m]|e]; reflexivity.
  - intros w1 n H.
    destruct (save_ok _ _ _ _ _ _ H)
      as [cs [added [Hcs [Hrows [Hnew [Hg [Hn _]]]]]]].
    exists cs, added. split; [now apply canonical_links_each|]. auto.
Qed.

(** ** The normalisation rules *)

Lemma contains_app_l (n u x : string) :
  Py.contains n u = true -> Py.contains n (u ++ x) = true.
Proof.
  induction u as [|a u IH]; simpl.
  - rewrite orb_false_r. intros H. destruct n; [|discriminate].
    destruct x; reflexivity.
  - intros H. apply orb_prop in H as [H|H].
    + change (String a (u ++ x)) with (String a u ++ x).
      now rewrite (startswith_app_l _ _ x H).
    + rewrite (IH H). apply orb_true_r.
Qed.

(** C3. A telegram link whose path begins with a reserved prefix keeps its
    whole path, without trailing slashes; otherwise, on host t.me with a
    numeric second segment, it collapses to its first segment. *)
Theorem telegram_special_rule :
  (forall link p,
      Py.contains "t.me" link = true ->
      urlparse link = Ok p ->
      (has_special_prefix (path p) = true ->
       exists stripped k,
         path p = stripped ++ slashes k
         /\ ends_with "/" stripped = false
         /\ normalized_of link
            = Ok (scheme p ++ "://" ++ netloc p ++ stripped))
      /\ (has_special_prefix (path p) = false ->
          netloc p = "t.me" ->
          forall first second,
            nth_error (Py.split "/" (path p)) 1 = Some first ->
            nth_error (Py.split "/" (path p)) 2 = Some second ->
            Py.isdigit second = true ->
            normalized_of link
            = Ok (scheme p ++ "://" ++ netloc p ++ "/" ++ first)))
  /\ normalized_of "https://t.me/examplechannel/12345"
     = Ok "https://t.me/examplechannel"
  /\ normalized_of "https://t.me/examplechannel/67890"
     = Ok "https://t.me/examplechannel"
  /\ normalized_of "https://t.me/joinchat/ABC123"
     = Ok "https://t.me/joinchat/ABC123".
Proof.
  split; [|repeat split; reflexivity].
  intros link p Ht Hp. unfold normalized_of. rewrite Ht. split.
  - intros Hs. destruct (general_form_spec p) as [stripped [k [Hk [He Hg]]]].
    exists stripped, k. split; [exact Hk|]. split; [exact He|].
    rewrite <- Hg. now apply special_prefix_keeps_path.
  - intros Hs Hn first second H1 H2 Hd.
    now apply (numeric_second_segment_collapses link p first second).
Qed.

(** C4. Outside the telegram rule the canonical link is scheme, host and
    the path without its trailing slashes; a query or a fragment changes
    nothing. *)
Theorem general_rule :
  (forall link p,
      urlparse link = Ok p ->
      Py.contains "t.me" link = false
      \/ netloc p <> "t.me"
      \/ (forall second, nth_error (Py.split "/" (path p)) 2 = Some second ->
                         Py.isdigit second = false) ->
      exists stripped k,
        path p = stripped ++ slashes k
        /\ ends_with "/" stripped = false
        /\ normalized_of link
           = Ok (scheme p ++ "://" ++ netloc p ++ stripped))
  /\ (forall u c x,
        suffix_mark c ->
        Py.has_char "?" u = false -> Py.has_char "#" u = false ->
        normalize_link (u ++ String c x) = normalize_link u
        /\ (Py.contains "t.me" (u ++ String c x) = false ->
            normalized_of (u ++ String c x) = normalized_of u))
  /\ normalized_of "https://example.com/page?utm=abc#frag"
     = Ok "https://example.com/page"
  /\ normalized_of "https://example.com/page"
     = Ok "https://example.com/page".
Proof.
  split; [|split; [|split; reflexivity]].
  - intros link p Hp H.
    destruct (general_form_spec p) as [stripped [k [Hk [He Hg]]]].
    exists stripped, k. split; [exact Hk|]. split; [exact He|].
    rewrite <- Hg. apply general_rule_applies; [exact Hp|]. tauto.
  - intros u c x Hc Hq Hf. split; [now apply normalize_link_suffix|].
    intros Ht. unfold normalized_of. rewrite Ht.
    destruct (Py.contains "t.me" u) eqn:Eu.
    + apply (contains_app_l _ _ (String c x)) in Eu. congruence.
    + now apply normalize_link_suffix.
Qed.

(** One candidate that normalises does not stop the loop: the rest of the
    batch is processed next. *)
Lemma insert_each_next (link c : string) (rest : list string) (chat : Chat)
    (s : User) (conn : Database) (k : nat) (w : World) :
  normalized_of link = Ok c ->
  no_fault w ->
  exists conn' k' w',
    insert_each (link :: rest) chat (Some s) conn k w
    = insert_each rest chat (Some s) conn' k' w'
    /\ no_fault w'.
Proof.
  intros Hc Hw. cbn [insert_each]. rewrite Hc. unfold utcnow.
  set (w1 := mkWorld (db w) (clock w + 1) (faults w) (trace w)).
  destruct (next_fault_frame w1) as [_ [_ Hf]].
  destruct (Hf Hw) as [Hfalse Hw2].
  destruct (next_fault w1) as [fault w2]. cbn [fst snd] in *. subst fault.
  unfold execute_insert.
  destruct (stored (chat_id chat) (rows conn) c); eauto.
Qed.

(** C5, as the code has it. A link whose parse has neither scheme nor host
    normalises without failure to [://] followed by its path without
    trailing slashes, and the loop goes on to its siblings. *)
Theorem empty_components_canonical :
  forall link p,
    urlparse link = Ok p ->
    scheme p = "" -> netloc p = "" ->
    exists stripped n,
      path p = stripped ++ slashes n
      /\ ends_with "/" stripped = false
      /\ normalized_of link = Ok ("://" ++ stripped)
      /\ forall rest chat s conn k w,
           no_fault w ->
           exists conn' k' w',
             insert_each (link :: rest) chat (Some s) conn k w
             = insert_each rest chat (Some s) conn' k' w'.
Proof.
  intros link p Hp Hs Hn.
  destruct (general_form_spec p) as [stripped [n [Hk [He Hg]]]].
  exists stripped, n. split; [exact Hk|]. split; [exact He|].
  assert (Hc : normalized_of link = Ok ("://" ++ stripped)).
  { rewrite (general_rule_applies link p Hp).
    - rewrite Hg, Hs, Hn. reflexivity.
    - right. right. left. rewrite Hn. discriminate. }
  split; [exact Hc|].
  intros rest chat s conn k w Hw.
  destruct (insert_each_next link _ rest chat s conn k w Hc Hw)
    as [conn' [k' [w' [H _]]]].
  eauto.
Qed.

(** ** The order of extraction *)

Lemma fold_entity_step (t : string) (ents : list MessageEntity)
    (acc : list string) :
  fold_left (entity_step t) ents acc
  = (acc ++ flat_map (entity_link t) ents)%list.
Proof.
  revert acc; induction ents as [|e ents IH]; intros acc; simpl.
  - now rewrite app_nil_r.
  - rewrite IH. unfold entity_step, entity_link.
    destruct (entity_type e); simpl; now rewrite <- ?app_assoc.
Qed.

Lemma fold_button_step (row : list InlineKeyboardButton) (acc : list string) :
  fold_left button_step row acc = (acc ++ flat_map button_link row)%list.
Proof.
  revert acc; induction row as [|b row IH]; intros acc; simpl.
  - now rewrite app_nil_r.
  - rewrite IH. unfold button_step, button_link.
    destruct (button_url b) as [[|c u]|]; simpl; now rewrite <- ?app_assoc.
Qed.

Lemma fold_rows (keyboard : list (list InlineKeyboardButton))
    (acc : list string) :
  fold_left (fun result row => fold_left button_step row result) keyboard acc
  = (acc ++ flat_map (flat_map button_link) keyboard)%list.
Proof.
  revert acc; induction keyboard as [|row keyboard IH]; intros acc; simpl.
  - now rewrite app_nil_r.
  - now rewrite IH, fold_button_step, <- app_assoc.
Qed.

(** C6. The links of a message come in this order: those of the text
    entities, of the caption entities, of the buttons row by row, and last
    those of the message it replies to. *)
Theorem extraction_order :
  (forall m,
      extract_all_links_from_message m
      = (text_links m ++ caption_links m ++ button_links m
         ++ parent_links m)%list)
  /\ (forall a t offset length label b u,
        extract_all_links_from_message
          (mkMessage (Some (String a t)) [mkEntity URL offset length] None []
             None
             (Some (mkMessage None [] None []
                      (Some (mkMarkup [[mkButton label (Some (String b u))]]))
                      None)))
        = [Py.slice (String a t) offset (offset + length); String b u]).
Proof.
  split; [|reflexivity].
  intros [txt ents cap cents markup parent].
  unfold text_links, caption_links, button_links, parent_links.
  cbn [extract_all_links_from_message text entities caption caption_entities
         reply_markup reply_to_message].
  unfold extract_links_from_entities, extract_links_from_buttons.
  destruct txt as [[|a t]|], cap as [[|c u]|], markup as [k|], parent as [p|];
    rewrite ?fold_entity_step, ?fold_rows;
    cbn [app]; rewrite ?app_nil_r, <- ?app_assoc; reflexivity.
Qed.

(** ** When a call fails *)

Lemma urlparse_raises (link : string) (e : exn) :
  urlparse link = Raise e ->
  e = ValueError
  /\ (Py.has_char "[" (fst (split_netloc (snd (split_scheme
         (Py.remove unsafe_url_byte (Py.lstrip c0_control_or_space link))))))
       = true
      \/ Py.has_char "]" (fst (split_netloc (snd (split_scheme
            (Py.remove unsafe_url_byte (Py.lstrip c0_control_or_space link))))))
         = true).
Proof.
  unfold urlparse.
  destruct (split_scheme _) as [sch w]. cbn [snd].
  destruct (split_netloc w) as [loc y]. cbn [fst].
  unfold check_netloc.
  destruct (Py.has_char "[" loc), (Py.has_char "]" loc); cbn [andb orb negb bind].
  - destruct (check_bracketed_netloc loc); cbn [negb bind].
    + destruct (split_once "#" y) as [u5 frag], (split_once "?" u5) as [u6 qry].
      match goal with
      | |- context [let (_, _) := ?t in _] => destruct t
      end; discriminate.
    + intros H; injection H as <-. auto.
  - intros H; injection H as <-. auto.
  - intros H; injection H as <-. auto.
  - destruct (split_once "#" y) as [u5 frag], (split_once "?" u5) as [u6 qry].
    match goal with
    | |- context [let (_, _) := ?t in _] => destruct t
    end; discriminate.
Qed.

Lemma normalize_telegram_channel_raises (link : string) (e : exn) :
  normalize_telegram_channel link = Raise e -> urlparse link = Raise e.
Proof.
  unfold normalize_telegram_channel.
  destruct (urlparse link) as [p|e0]; cbn [bind]; [|intros H; injection H as ->; reflexivity].
  destruct (existsb _ special_prefixes); [discriminate|].
  destruct (_ && Py.contains "/" _); [|discriminate].
  destruct (_ && Py.isdigit _); discriminate.
Qed.

Lemma normalized_of_raises (link : string) (e : exn) :
  normalized_of link = Raise e -> urlparse link = Raise e.
Proof.
  unfold normalized_of. destruct (Py.contains "t.me" link).
  - apply normalize_telegram_channel_raises.
  - unfold normalize_link. destruct (urlparse link); cbn [bind];
      [discriminate|intros H; injection H as ->; reflexivity].
Qed.

Lemma normalized_of_value_error (link : string) (e : exn) :
  normalized_of link = Raise e -> e = ValueError.
Proof.
  intros H. apply normalized_of_raises in H.
  now apply urlparse_raises in H.
Qed.

Lemma has_char_break_fst (c : ascii) (p : ascii -> bool) (v : string) :
  Py.has_char c v = false -> Py.has_char c (fst (Py.break p v)) = false.
Proof.
  intros H. rewrite (break_append p v), has_char_app in H.
  now apply orb_false_elim in H.
Qed.

Lemma split_netloc_fst_has_char (c : ascii) (w : string) :
  Py.has_char c w = false -> Py.has_char c (fst (split_netloc w)) = false.
Proof.
  intros H. destruct w as [|a [|b r]]; [reflexivity| |].
  { destruct a as [[] [] [] [] [] [] [] []]; reflexivity. }
  destruct (Ascii.eqb_spec a "/") as [->|Ha];
    [destruct (Ascii.eqb_spec b "/") as [->|Hb]|].
  - change (split_netloc (String "/" (String "/" r)))
      with (Py.break netloc_delim r).
    apply has_char_break_fst. simpl in H.
    apply orb_false_elim in H as [_ H]. now apply orb_false_elim in H as [_ H].
  - simpl. destruct b as [[] [] [] [] [] [] [] []]; try reflexivity.
    now elim Hb.
  - simpl. destruct a as [[] [] [] [] [] [] [] []]; try reflexivity.
    now elim Ha.
Qed.

(** X4. On links of ASCII characters normalisation fails on square brackets
    only: such a link without [[] and []] has a canonical link, and when
    normalisation of such a link raises, it raises a ValueError and the
    link has a bracket. *)
Theorem bracket_free_links_normalise :
  forall link,
    ascii_only link = true ->
    (Py.has_char "[" link = false -> Py.has_char "]" link = false ->
     exists c, normalized_of link = Ok c)
    /\ (forall e, normalized_of link = Raise e ->
         e = ValueError
         /\ (Py.has_char "[" link = true \/ Py.has_char "]" link = true)).
Proof.
  assert (Hkey : forall link e, normalized_of link = Raise e ->
            e = ValueError
            /\ (Py.has_char "[" link = true \/ Py.has_char "]" link = true)).
  { intros link e H. apply normalized_of_raises, urlparse_raises in H.
    destruct H as [He Hb]. split; [exact He|].
    destruct (Py.has_char "[" link) eqn:Eo; [now left|].
    destruct (Py.has_char "]" link) eqn:Ec; [now right|].
    exfalso.
    assert (Hn : forall c, Py.has_char c link = false ->
              Py.has_char c (fst (split_netloc (snd (split_scheme
                (Py.remove unsafe_url_byte
                   (Py.lstrip c0_control_or_space link)))))) = false).
    { intros c Hc.
      apply split_netloc_fst_has_char, split_scheme_has_char,
        has_char_remove, has_char_lstrip, Hc. }
    rewrite (Hn _ Eo), (Hn _ Ec) in Hb. destruct Hb; discriminate. }
  intros link _. split; [|apply Hkey].
  intros Ho Hc. destruct (normalized_of link) as [c|e] eqn:E; [eauto|].
  destruct (Hkey link e E) as [_ [H|H]]; congruence.
Qed.

Lemma insert_each_raise_kind (links : list string) (chat : Chat)
    (sender : option User) :
  forall conn k w w' e,
    insert_each links chat sender conn k w = (w', Raise e) ->
    e = ValueError \/ e = AttributeError \/ e = OperationalError.
Proof.
  induction links as [|link rest IH]; intros conn k w w' e H;
    [discriminate|].
  cbn [insert_each] in H.
  destruct (normalized_of link) as [c|e0] eqn:Ec.
  - unfold utcnow in H. destruct sender as [s|].
    + destruct (next_fault _) as [fault w2]. unfold execute_insert in H.
      destruct fault; [injection H as _ <-; auto|].
      destruct (stored (chat_id chat) (rows conn) c); eapply IH; eauto.
    + injection H as _ <-. auto.
  - injection H as _ <-. left. now apply normalized_of_value_error in Ec.
Qed.

(** X1. A call that raises has persisted nothing of its batch and leaves
    its connection open; what it raises is never the duplicate error. *)
Theorem failed_batch_persists_nothing :
  forall links chat sender w w' e,
    save_links_to_db links chat sender w = (w', Raise e) ->
    db w' = db w
    /\ trace w' = (trace w ++ [Connect])%list
    /\ open_connections (trace w') = (open_connections (trace w) + 1)%Z
    /\ (e = ValueError \/ e = AttributeError \/ e = OperationalError).
Proof.
  intros links chat sender w w' e H.
  destruct (save_raise _ _ _ _ _ _ H) as [Hd Ht].
  split; [exact Hd|]. split; [exact Ht|]. split.
  - rewrite Ht, open_connections_app. reflexivity.
  - unfold save_links_to_db in H.
    destruct (insert_each links chat sender _ 0 _) as [w1 [[conn k]|e1]] eqn:E;
      [discriminate|].
    injection H as _ <-. eapply insert_each_raise_kind; eauto.
Qed.

Lemma insert_each_malformed (links : list string) (chat : Chat)
    (sender : option User) (e : exn) :
  canonical_links links = Raise e ->
  forall conn k w,
    exists w' e',
      insert_each links chat sender conn k w = (w', Raise e')
      /\ (no_fault w -> sender <> None -> e' = ValueError).
Proof.
  induction links as [|link rest IH]; intros Hcs conn k w; [discriminate|].
  cbn [canonical_links] in Hcs. cbn [insert_each].
  destruct (normalized_of link) as [c|e0] eqn:Ec; cbn [bind] in Hcs.
  - destruct (canonical_links rest) as [cs|e1]; [discriminate|].
    cbn [bind] in Hcs. injection Hcs as ->.
    specialize (IH eq_refl). unfold utcnow.
    destruct sender as [s|]; [|eexists _, _; split; [reflexivity|congruence]].
    set (w1 := mkWorld (db w) (clock w + 1) (faults w) (trace w)).
    destruct (next_fault_frame w1) as [_ [_ Hf]].
    destruct (next_fault w1) as [fault w2]. cbn [fst snd] in Hf.
    unfold execute_insert. destruct fault.
    + eexists _, _. split; [reflexivity|].
      intros Hw _. destruct (Hf Hw) as [Hfalse _]. discriminate.
    + assert (Hnext : forall conn2 k2, exists w' e',
                insert_each rest chat (Some s) conn2 k2 w2 = (w', Raise e')
                /\ (no_fault w -> Some s <> None -> e' = ValueError)).
      { intros conn2 k2. destruct (IH conn2 k2 w2) as [w' [e' [H He]]].
        exists w', e'. split; [exact H|].
        intros Hw Hs. apply He; [|exact Hs]. now apply Hf. }
      destruct (stored (chat_id chat) (rows conn) c); apply Hnext.
  - eexists _, _. split; [reflexivity|].
    intros _ _. now apply normalized_of_value_error in Ec.
Qed.

(** X2. One link that does not normalise costs the whole batch: the call
    raises, with a present sender and a sound disk a ValueError, and the
    links before it are not stored either. *)
Theorem malformed_link_aborts_batch :
  forall links chat sender w e,
    canonical_links links = Raise e ->
    exists w' e',
      save_links_to_db links chat sender w = (w', Raise e')
      /\ db w' = db w
      /\ (no_fault w -> sender <> None -> e' = ValueError).
Proof.
  intros links chat sender w e Hcs.
  destruct (insert_each_malformed links chat sender e Hcs
              (db (log Connect w)) 0 (log Connect w)) as [w1 [e' [H He]]].
  exists w1, e'.
  assert (Hs : save_links_to_db links chat sender w = (w1, Raise e'))
    by (unfold save_links_to_db; now rewrite H).
  split; [exact Hs|]. split; [now apply save_raise in Hs|exact He].
Qed.

(** X3. Without a sender no link is stored: a message that carries a link
    makes the handler raise, nothing is persisted and no line is printed. *)
Theorem missing_sender_never_saves :
  forall message chat w,
    extract_all_links_from_message message <> [] ->
    exists w' e,
      handle_all_messages (Some message) chat None w = (w', Raise e)
      /\ (e = ValueError \/ e = AttributeError)
      /\ db w' = db w
      /\ trace w' = (trace w ++ [Connect])%list.
Proof.
  intros message chat w Hne. unfold handle_all_messages.
  destruct (extract_all_links_from_message message) as [|link rest];
    [congruence|].
  destruct (save_links_to_db (link :: rest) chat None w) as [w1 r] eqn:H.
  assert (Hr : exists e, r = Raise e /\ (e = ValueError \/ e = AttributeError)).
  { revert H. unfold save_links_to_db. cbn [insert_each].
    destruct (normalized_of link) as [c|e0] eqn:Ec.
    - unfold utcnow. intros H; injection H as _ <-. eauto.
    - intros H; injection H as _ <-. exists e0. split; [reflexivity|].
      left. now apply normalized_of_value_error in Ec. }
  destruct Hr as [e [-> He]]. exists w1, e.
  destruct (save_raise _ _ _ _ _ _ H) as [Hd Ht]. auto.
Qed.

(** ** The table over time *)




(** X7. The store only appends, and only rows of the group it is called
    for: the rows it held stay where they are, and the records of every
    other group are the same after the call, whatever its outcome. *)
Theorem store_is_append_only :
  forall links chat sender w,
    exists added,
      rows (db (fst (save_links_to_db links chat sender w)))
      = (rows (db w) ++ added)%list
      /\ Forall (fun r => group_id r = chat_id chat) added
      /\ forall g, g <> chat_id chat ->
           records_of g (rows (db (fst (save_links_to_db links chat sender w))))
           = records_of g (rows (db w)).
Proof.
  intros links chat sender w.
  destruct (save_links_to_db links chat sender w) as [w' [n|e]] eqn:H; cbn [fst].
  - destruct (save_ok _ _ _ _ _ _ H)
      as [cs [added [Hcs [Hrows [Hnew [Hg [Hn Ht]]]]]]].
    exists added. split; [exact Hrows|]. split; [exact Hg|].
    intros g Hne. rewrite Hrows. unfold records_of. rewrite filter_app.
    replace (filter (fun r => (group_id r =? g)%Z) added) with (@nil Row);
      [now rewrite app_nil_r|].
    symmetry. clear Hrows Hnew Hn. induction Hg as [|r t Hr _ IH]; simpl;
      [reflexivity|].
    rewrite Hr. destruct (Z.eqb_spec (chat_id chat) g); [congruence|exact IH].
  - apply save_raise in H as [-> _]. exists []. rewrite app_nil_r.
    repeat split; auto.
Qed.

Lemma describes_weaken (link : string) (rest : list string) (chat : Chat)
    (sender : option User) (r : Row) :
  describes rest chat sender r -> describes (link :: rest) chat sender r.
Proof. unfold describes. intros [H1 H2]. split; [now right|exact H2]. Qed.

Lemma insert_each_rows (links : list string) (chat : Chat)
    (sender : option User) :
  forall conn k w w' conn' k',
    insert_each links chat sender conn k w = (w', Ok (conn', k')) ->
    exists added,
      rows conn' = (rows conn ++ added)%list
      /\ Forall (describes links chat sender) added.
Proof.
  induction links as [|link rest IH]; intros conn k w w' conn' k' H.
  - injection H as <- <- <-. exists []. now rewrite app_nil_r.
  - cbn [insert_each] in H.
    destruct (normalized_of link) as [c|e] eqn:Ec; [|discriminate].
    unfold utcnow in H. destruct sender as [s|]; [|discriminate].
    destruct (next_fault _) as [fault w2].
    unfold execute_insert in H. destruct fault; [discriminate|].
    destruct (stored (chat_id chat) (rows conn) c) eqn:Es.
    + apply IH in H as [added [Hrows Hd]]. exists added. split; [exact Hrows|].
      eapply Forall_impl; [|exact Hd]. intros r. apply describes_weaken.
    + apply IH in H as [added [Hrows Hd]]. cbn [rows] in Hrows.
      match type of Hrows with
      | _ = ((_ ++ [?r]) ++ _)%list => exists (r :: added)
      end.
      split; [now rewrite Hrows, <- app_assoc|].
      constructor.
      * unfold describes. cbn. destruct s. repeat split; auto.
      * eapply Forall_impl; [|exact Hd]. intros r. apply describes_weaken.
Qed.

(** X8. Every row a call appends describes a candidate of its batch: the
    raw link, its canonical link and platform tag, the chat and the sender
    of the call; the tag is telegram exactly when the raw link contains
    [t.me]. *)
Theorem stored_rows_describe_their_link :
  forall links chat sender w w' n,
    save_links_to_db links chat sender w = (w', Ok n) ->
    exists added,
      rows (db w') = (rows (db w) ++ added)%list
      /\ Forall (fun r =>
                   describes links chat sender r
                   /\ (platform r = "telegram"
                       <-> Py.contains "t.me" (original_link r) = true))
           added.
Proof.
  intros links chat sender w w' n H. unfold save_links_to_db in H.
  destruct (insert_each links chat sender _ 0 _) as [w1 [[conn k]|e]] eqn:E;
    [|discriminate].
  injection H as <- <-.
  apply insert_each_rows in E as [added [Hrows Hd]].
  exists added. split; [exact Hrows|].
  eapply Forall_impl; [|exact Hd]. intros r Hr. split; [exact Hr|].
  destruct Hr as [_ [_ [Hp _]]]. rewrite Hp. unfold detect_platform.
  destruct (Py.contains "t.me" (original_link r)); [tauto|].
  destruct (Py.contains "chat.whatsapp.com" (original_link r));
    split; discriminate.
Qed.

Lemma insert_each_ids (links : list string) (chat : Chat)
    (sender : option User) :
  forall conn k w w' conn' k',
    insert_each links chat sender conn k w = (w', Ok (conn', k')) ->
    ids_fresh conn ->
    ids_fresh conn' /\ (sequence conn <= sequence conn')%Z.
Proof.
  induction links as [|link rest IH]; intros conn k w w' conn' k' H Hi.
  - injection H as <- <- <-. split; [exact Hi|lia].
  - cbn [insert_each] in H.
    destruct (normalized_of link) as [c|e] eqn:Ec; [|discriminate].
    unfold utcnow in H. destruct sender as [s|]; [|discriminate].
    destruct (next_fault _) as [fault w2].
    unfold execute_insert in H. destruct fault; [discriminate|].
    destruct (stored (chat_id chat) (rows conn) c) eqn:Es.
    + now apply IH in H.
    + apply IH in H as [Hi' Hle].
      * split; [exact Hi'|]. cbn [sequence] in Hle. lia.
      * destruct Hi as [Hnd Hall]. unfold ids_fresh. cbn [rows sequence].
        rewrite Forall_forall in Hall. split.
        -- rewrite map_app. apply NoDup_app; [exact Hnd| |].
           ++ cbn. constructor; [intros []|constructor].
           ++ intros i Hin [<-|[]]. apply in_map_iff in Hin as [r [Hr Hin]].
              specialize (Hall r Hin). cbn in Hr. lia.
        -- apply Forall_forall. intros r Hin. apply in_app_iff in Hin as [Hin|Hin].
           ++ specialize (Hall r Hin). lia.
           ++ destruct Hin as [<-|[]]. cbn. lia.
Qed.

(** X9. The primary key stays a key: when no id occurs twice and none
    exceeds the counter, the same holds after a call, whatever its outcome,
    and the counter has not gone down. *)
Theorem row_ids_stay_unique :
  forall links chat sender w,
    ids_fresh (db w) ->
    ids_fresh (db (fst (save_links_to_db links chat sender w)))
    /\ (sequence (db w)
        <= sequence (db (fst (save_links_to_db links chat sender w))))%Z.
Proof.
  intros links chat sender w Hi.
  destruct (save_links_to_db links chat sender w) as [w' [n|e]] eqn:H; cbn [fst].
  - unfold save_links_to_db in H.
    destruct (insert_each links chat sender _ 0 _) as [w1 [[conn k]|e]] eqn:E;
      [|discriminate].
    injection H as <- <-. cbn [log commit db].
    now apply (insert_each_ids _ _ _ _ _ _ _ _ _ E).
  - apply save_raise in H as [-> _]. split; [exact Hi|lia].
Qed.

Lemma first_new_length_le (seen : string -> bool) (l : list (string * string)) :
  List.length (first_new seen l) <= List.length l.
Proof.
  revert seen; induction l as [|[c raw] l IH]; intros seen; simpl; [lia|].
  destruct (seen c); [specialize (IH seen)|specialize (IH (fun x => seen x || String.eqb x c))];
    simpl; lia.
Qed.

Lemma first_new_nonempty (seen : string -> bool) (l : list (string * string)) :
  0 < List.length (first_new seen l)
  <-> exists c, In c (map fst l) /\ seen c = false.
Proof.
  split.
  - destruct (first_new seen l) as [|[c raw] t] eqn:E; simpl; [lia|].
    intros _. exists c. apply first_new_in. rewrite E. now left.
  - intros [c Hc]. apply first_new_in in Hc.
    destruct (first_new seen l); simpl in *; [contradiction|lia].
Qed.

Lemma save_count (links : list string) (chat : Chat) (sender : option User)
    (w w' : World) (n : nat) :
  save_links_to_db links chat sender w = (w', Ok n) ->
  exists cs,
    canonical_links links = Ok cs
    /\ n <= List.length links
    /\ (0 < n <-> exists c, In c cs
                           /\ stored (chat_id chat) (rows (db w)) c = false).
Proof.
  intros H. destruct (save_ok _ _ _ _ _ _ H)
    as [cs [added [Hcs [Hrows [Hnew [Hg [Hn Ht]]]]]]].
  pose proof (canonical_links_length _ _ Hcs) as Hlen.
  exists cs. split; [exact Hcs|].
  assert (En : n = List.length (first_new (stored (chat_id chat) (rows (db w)))
                                  (combine cs links)))
    by (rewrite <- Hnew, length_map; exact Hn).
  split.
  - rewrite En. etransitivity; [apply first_new_length_le|].
    rewrite length_combine. lia.
  - rewrite En, first_new_nonempty, combine_fst by exact Hlen. reflexivity.
Qed.

(** X10. The line is printed exactly when the message brings a canonical
    link the chat did not hold; it then follows the closing of the
    connection and carries a count between 1 and the number of links of
    the message. *)
Theorem line_printed_iff_new_link :
  forall message chat sender w w',
    handle_all_messages (Some message) chat sender w = (w', Ok tt) ->
    exists cs,
      canonical_links (extract_all_links_from_message message) = Ok cs
      /\ ((exists n,
              trace w'
              = (trace w ++ [Connect; Commit; Close;
                             Print (SavedLine n (chat_id chat) (title chat))])%list
              /\ 1 <= n
              /\ n <= List.length (extract_all_links_from_message message))
          <-> exists c, In c cs
                        /\ stored (chat_id chat) (rows (db w)) c = false).
Proof.
  intros message chat sender w w' H. unfold handle_all_messages in H.
  destruct (extract_all_links_from_message message) as [|link rest] eqn:E.
  - injection H as <-. exists []. split; [reflexivity|]. split.
    + intros [n [Ht _]]. rewrite <- (app_nil_r (trace w)) in Ht at 1.
      apply app_inv_head in Ht. discriminate.
    + intros [c [[] _]].
  - destruct (save_links_to_db (link :: rest) chat sender w) as [ws [n|e]] eqn:Hs;
      [|discriminate].
    destruct (save_count _ _ _ _ _ _ Hs) as [cs [Hcs [Hle Hiff]]].
    destruct (save_ok _ _ _ _ _ _ Hs) as [_ [_ [_ [_ [_ [_ [_ Ht]]]]]]].
    exists cs. split; [exact Hcs|]. rewrite <- Hiff.
    destruct n as [|m]; injection H as <-.
    + split; [|lia]. intros [n [Ht' _]]. rewrite Ht in Ht'.
      apply app_inv_head in Ht'. discriminate.
    + split; [lia|]. intros _. exists (S m). cbn [log trace].
      rewrite Ht, <- app_assoc. split; [reflexivity|]. split; [lia|exact Hle].
Qed.

(** ** The scheme *)

Lemma alpha_not_stripped (a : ascii) :
  Py.ascii_alpha a = true -> c0_control_or_space a = false.
Proof. destruct a as [[] [] [] [] [] [] [] []]; (reflexivity || discriminate). Qed.

Lemma scheme_char_kept (a : ascii) :
  scheme_char a = true ->
  unsafe_url_byte a = false /\ Ascii.eqb ":" a = false.
Proof.
  destruct a as [[] [] [] [] [] [] [] []];
    (discriminate || (split; reflexivity)).
Qed.

Lemma lower_char_facts (a : ascii) :
  Py.ascii_alpha (Py.lower_char a) = Py.ascii_alpha a
  /\ scheme_char (Py.lower_char a) = scheme_char a
  /\ Py.lower_char (Py.lower_char a) = Py.lower_char a.
Proof. destruct a as [[] [] [] [] [] [] [] []]; repeat split. Qed.

Lemma lower_lower (s : string) : Py.lower (Py.lower s) = Py.lower s.
Proof.
  induction s as [|a s IH]; simpl; [reflexivity|].
  destruct (lower_char_facts a) as [_ [_ ->]]. now rewrite IH.
Qed.

Lemma all_scheme_lower (s : string) :
  Py.all_chars scheme_char (Py.lower s) = Py.all_chars scheme_char s.
Proof.
  induction s as [|a s IH]; simpl; [reflexivity|].
  destruct (lower_char_facts a) as [_ [-> _]]. now rewrite IH.
Qed.

Lemma valid_scheme_lower (s : string) :
  valid_scheme (Py.lower s) = valid_scheme s.
Proof.
  destruct s as [|a s]; [reflexivity|].
  unfold valid_scheme. change (Py.lower (String a s))
    with (String (Py.lower_char a) (Py.lower s)).
  rewrite <- (all_scheme_lower (String a s)).
  destruct (lower_char_facts a) as [-> _]. reflexivity.
Qed.

Lemma remove_scheme (s x : string) :
  Py.all_chars scheme_char s = true ->
  Py.remove unsafe_url_byte (s ++ x) = s ++ Py.remove unsafe_url_byte x.
Proof.
  induction s as [|a s IH]; simpl; [reflexivity|].
  intros H. apply andb_prop in H as [Ha Hs].
  destruct (scheme_char_kept a Ha) as [-> _]. now rewrite IH.
Qed.

Lemma break_scheme (s r : string) :
  Py.all_chars scheme_char s = true ->
  Py.break (Ascii.eqb ":") (s ++ String ":" r) = (s, String ":" r).
Proof.
  induction s as [|a s IH]; [reflexivity|].
  intros H. cbn [Py.all_chars] in H. apply andb_prop in H as [Ha Hs].
  change (String a s ++ String ":" r) with (String a (s ++ String ":" r)).
  cbn [Py.break]. destruct (scheme_char_kept a Ha) as [_ ->].
  now rewrite IH.
Qed.

(** A link that begins with a scheme and a colon, as the parse sees it. *)
Lemma urlparse_with_scheme (s rest : string) :
  valid_scheme s = true ->
  urlparse (s ++ String ":" rest)
  = (let (loc, url) := split_netloc (Py.remove unsafe_url_byte rest) in
     _ <- check_netloc loc ;;
     let (url, frag) := split_once "#" url in
     let (url, qry) := split_once "?" url in
     let (url, prm) :=
       if existsb (String.eqb (Py.lower s)) uses_params && Py.has_char ";" url
       then splitparams url
       else (url, EmptyString) in
     Ok (mkParseResult (Py.lower s) loc url prm qry frag)).
Proof.
  intros Hv. destruct s as [|a s]; [discriminate|].
  unfold valid_scheme in Hv. apply andb_prop in Hv as [Ha Hs].
  unfold urlparse.
  change (String a s ++ String ":" rest) with (String a (s ++ String ":" rest)).
  cbn [Py.lstrip]. rewrite (alpha_not_stripped a Ha).
  change (String a (s ++ String ":" rest)) with (String a s ++ String ":" rest).
  rewrite remove_scheme by exact Hs.
  replace (Py.remove unsafe_url_byte (String ":" rest))
    with (String ":" (Py.remove unsafe_url_byte rest)) by reflexivity.
  unfold split_scheme. rewrite break_scheme by exact Hs.
  rewrite Ha, Hs. reflexivity.
Qed.

(** X11. The scheme counts without its case: a link and the same link with
    its scheme in lower case parse alike, so both normalisers give them
    one canonical link, whose scheme is the lower-case one. *)
Theorem scheme_case_is_ignored :
  forall s rest,
    valid_scheme s = true ->
    urlparse (s ++ String ":" rest) = urlparse (Py.lower s ++ String ":" rest)
    /\ normalize_link (s ++ String ":" rest)
       = normalize_link (Py.lower s ++ String ":" rest)
    /\ normalize_telegram_channel (s ++ String ":" rest)
       = normalize_telegram_channel (Py.lower s ++ String ":" rest)
    /\ forall p, urlparse (s ++ String ":" rest) = Ok p ->
                 scheme p = Py.lower s.
Proof.
  intros s rest Hv.
  assert (E : urlparse (s ++ String ":" rest)
              = urlparse (Py.lower s ++ String ":" rest)).
  { rewrite (urlparse_with_scheme s rest Hv).
    rewrite (urlparse_with_scheme (Py.lower s) rest)
      by (now rewrite valid_scheme_lower).
    now rewrite lower_lower. }
  split; [exact E|].
  split; [unfold normalize_link; now rewrite E|].
  split; [unfold normalize_telegram_channel; now rewrite E|].
  intros p. rewrite (urlparse_with_scheme s rest Hv).
  destruct (split_netloc _) as [loc y].
  destruct (check_netloc loc) as [[]|e]; cbn [bind]; [|discriminate].
  destruct (split_once "#" y) as [u5 frag], (split_once "?" u5) as [u6 qry].
  match goal with
  | |- context [let (_, _) := ?t in _] => destruct t
  end.
  intros H; injection H as <-. reflexivity.
Qed.

(** ** The text under an entity *)

Lemma string_length_app (a b : string) :
  String.length (a ++ b) = String.length a + String.length b.
Proof. induction a as [|x a IH]; simpl; [reflexivity|now rewrite IH]. Qed.

Lemma substring_skip (pre s : string) (m : nat) :
  String.substring (String.length pre) m (pre ++ s) = String.substring 0 m s.
Proof. induction pre as [|x pre IH]; simpl; [reflexivity|exact IH]. Qed.

Lemma substring_take (link post : string) :
  String.substring 0 (String.length link) (link ++ post) = link.
Proof. induction link as [|x l IH]; simpl; [now destruct post|now rewrite IH]. Qed.

Lemma substring_nothing (n : nat) (s : string) : String.substring n 0 s = "".
Proof.
  revert s; induction n as [|n IH]; intros [|x s]; simpl; try reflexivity.
  apply IH.
Qed.

Lemma clamp_inside (n i : Z) :
  (0 <= i <= n)%Z -> Py.clamp n i = Z.to_nat i.
Proof.
  intros H. unfold Py.clamp. destruct (Z.ltb_spec i 0); [lia|].
  f_equal. lia.
Qed.

Lemma clamp_beyond (n i : Z) :
  (0 <= n <= i)%Z -> Py.clamp n i = Z.to_nat n.
Proof.
  intros H. unfold Py.clamp. destruct (Z.ltb_spec i 0); [lia|].
  f_equal. lia.
Qed.

(** X12. A URL entity that lies in the text yields exactly the text it
    covers; one that starts at or after the end of the text yields the
    empty string, as a link like any other, and nothing is raised. *)
Theorem url_entity_text :
  (forall pre link post,
      extract_links_from_entities (pre ++ link ++ post)
        [mkEntity URL (Z.of_nat (String.length pre))
           (Z.of_nat (String.length link))]
      = [link])
  /\ (forall text offset length,
        (Z.of_nat (String.length text) <= offset)%Z ->
        (0 <= length)%Z ->
        extract_links_from_entities text [mkEntity URL offset length]
        = [EmptyString]).
Proof.
  split.
  - intros pre link post.
    unfold extract_links_from_entities, entity_step, Py.slice.
    cbn [fold_left entity_type entity_offset entity_length app].
    rewrite !string_length_app, !clamp_inside by lia.
    replace (Z.to_nat (Z.of_nat (String.length pre)
                       + Z.of_nat (String.length link))
             - Z.to_nat (Z.of_nat (String.length pre)))
      with (String.length link) by lia.
    rewrite Nat2Z.id, substring_skip, substring_take. reflexivity.
  - intros text offset length Ho Hl.
    unfold extract_links_from_entities, entity_step, Py.slice.
    cbn [fold_left entity_type entity_offset entity_length app].
    rewrite !clamp_beyond by lia.
    rewrite Nat.sub_diag, substring_nothing. reflexivity.
Qed.

(** ** A trailing slash *)

Lemma rstrip_app_slash (y : string) :
  Py.rstrip "/" (y ++ "/") = Py.rstrip "/" y.
Proof.
  induction y as [|a y IH]; [reflexivity|].
  change (String a y ++ "/") with (String a (y ++ "/")).
  cbn [Py.rstrip]. now rewrite IH.
Qed.

Lemma startswith_app_char (c : ascii) (n s : string) :
  Py.has_char c n = false ->
  Py.startswith n (s ++ String c "") = Py.startswith n s.
Proof.
  revert s; induction n as [|x n IH]; intros s H; [now destruct s|].
  cbn [Py.has_char] in H. apply orb_false_elim in H as [Hx Hn].
  destruct s as [|b s].
  - cbn. now rewrite Hx.
  - change (String b s ++ String c "") with (String b (s ++ String c "")).
    cbn [Py.startswith]. now rewrite IH.
Qed.

Lemma contains_app_char (c : ascii) (n u : string) :
  Py.has_char c n = false ->
  Py.contains n (u ++ String c "") = Py.contains n u.
Proof.
  intros H. induction u as [|a u IH].
  - change ("" ++ String c "") with (String c "").
    cbn [Py.contains]. rewrite (startswith_app_char c n "" H : Py.startswith n (String c "") = _).
    now destruct (Py.startswith n "").
  - change (String a u ++ String c "") with (String a (u ++ String c "")).
    cbn [Py.contains].
    change (String a (u ++ String c "")) with (String a u ++ String c "").
    now rewrite startswith_app_char, IH.
Qed.

Lemma split_scheme_app (v : string) (c : ascii) (x : string) :
  Ascii.eqb ":" c = false -> scheme_char c = false ->
  split_scheme (v ++ String c x)
  = (fst (split_scheme v), snd (split_scheme v) ++ String c x).
Proof.
  intros Hc Hs. unfold split_scheme. rewrite break_app.
  destruct (Py.break (Ascii.eqb ":") v) as [a [|d r]] eqn:E.
  - assert (Hv : v = a) by
      (rewrite (break_append (Ascii.eqb ":") v), E; simpl; apply append_empty_r).
    subst a.
    assert (Hb : exists l r, Py.break (Ascii.eqb ":") (String c x) = (String c l, r)).
    { cbn [Py.break]. rewrite Hc.
      destruct (Py.break (Ascii.eqb ":") x) as [l r0]; eauto. }
    destruct Hb as [l [r' Hb]]. rewrite Hb.
    assert (Hsc : Py.all_chars scheme_char (v ++ String c l) = false).
    { rewrite all_chars_app. cbn [Py.all_chars]. rewrite Hs.
      now rewrite andb_false_r. }
    destruct (v ++ String c l) as [|a0 t] eqn:Ev.
    + destruct v; discriminate.
    + destruct r' as [|d' rest].
      * destruct v; reflexivity.
      * rewrite Hsc, andb_false_r. destruct v; reflexivity.
  - destruct a as [|a0 t]; [reflexivity|].
    destruct (Py.ascii_alpha a0 && Py.all_chars scheme_char (String a0 t));
      reflexivity.
Qed.

(** What a slash at the end of the text does to host and rest. *)
Lemma split_netloc_slash (w : string) :
  fst (split_netloc (w ++ "/")) = fst (split_netloc w)
  /\ (snd (split_netloc (w ++ "/")) = snd (split_netloc w) ++ "/"
      \/ (snd (split_netloc (w ++ "/")) = "" /\ snd (split_netloc w) = "/")).
Proof.
  destruct w as [|a [|b r]].
  - split; [reflexivity|now left].
  - destruct (Ascii.eqb_spec a "/") as [->|Ha].
    + split; [reflexivity|now right].
    + destruct a as [[] [] [] [] [] [] [] []];
        first [now elim Ha | split; [reflexivity|now left]].
  - destruct (Ascii.eqb_spec a "/") as [->|Ha];
      [destruct (Ascii.eqb_spec b "/") as [->|Hb]|].
    + change (split_netloc (String "/" (String "/" r) ++ "/"))
        with (Py.break netloc_delim (r ++ "/")).
      change (split_netloc (String "/" (String "/" r)))
        with (Py.break netloc_delim r).
      rewrite break_app.
      destruct (Py.break netloc_delim r) as [n [|d rest]]; cbn.
      * rewrite append_empty_r. split; [reflexivity|now left].
      * split; [reflexivity|now left].
    + destruct b as [[] [] [] [] [] [] [] []];
        first [now elim Hb | split; [reflexivity|now left]].
    + destruct a as [[] [] [] [] [] [] [] []];
        first [now elim Ha | split; [reflexivity|now left]].
Qed.

Lemma urlparse_plain_path (sch loc y : string) :
  Py.has_char "?" y = false -> Py.has_char "#" y = false ->
  Py.has_char ";" y = false ->
  (let (url, frag) := split_once "#" y in
   let (url, qry) := split_once "?" url in
   let (url, prm) :=
     if existsb (String.eqb sch) uses_params && Py.has_char ";" url
     then splitparams url
     else (url, EmptyString) in
   @Ok ParseResult (mkParseResult sch loc url prm qry frag))
  = Ok (mkParseResult sch loc y "" "" "").
Proof.
  intros Hq Hf Hp.
  rewrite (split_once_none "#" y Hf). cbv beta iota.
  rewrite (split_once_none "?" y Hq). cbv beta iota.
  now rewrite Hp, andb_false_r.
Qed.

(** With a slash appended the parse has the same scheme and host, and the
    same path once trailing slashes are stripped. *)
Lemma urlparse_trailing_slash (u : string) :
  Py.has_char "?" u = false -> Py.has_char "#" u = false ->
  Py.has_char ";" u = false ->
  match urlparse u, urlparse (u ++ "/") with
  | Ok p, Ok p' =>
      scheme p' = scheme p /\ netloc p' = netloc p
      /\ Py.rstrip "/" (path p') = Py.rstrip "/" (path p)
  | Raise e, Raise e' => e = e'
  | _, _ => False
  end.
Proof.
  intros Hq Hf Hp. unfold urlparse.
  rewrite lstrip_app_keep by reflexivity. rewrite remove_app.
  replace (Py.remove unsafe_url_byte "/") with "/" by reflexivity.
  set (v := Py.remove unsafe_url_byte (Py.lstrip c0_control_or_space u)).
  assert (Hv : forall c, Py.has_char c u = false -> Py.has_char c v = false)
    by (intros c Hc; apply has_char_remove, has_char_lstrip, Hc).
  rewrite split_scheme_app by reflexivity.
  pose proof (fun c Hc => split_scheme_has_char c v (Hv c Hc)) as Hw.
  destruct (split_scheme v) as [sch w]. cbn [fst snd] in *.
  pose proof (fun c Hc => split_netloc_has_char c w (Hw c Hc)) as Hy.
  destruct (split_netloc_slash w) as [Hloc Hrest].
  destruct (split_netloc (w ++ "/")) as [loc' y'].
  destruct (split_netloc w) as [loc y]. cbn [fst snd] in *. subst loc'.
  destruct (check_netloc loc) as [[]|e]; cbn [bind]; [|reflexivity].
  pose proof (Hy _ Hq) as Hyq. pose proof (Hy _ Hf) as Hyf.
  pose proof (Hy _ Hp) as Hyp.
  rewrite (urlparse_plain_path sch loc y Hyq Hyf Hyp).
  destruct Hrest as [->|[-> Hy1]].
  - rewrite (urlparse_plain_path sch loc (y ++ "/"))
      by (rewrite has_char_app; cbn [Py.has_char];
          first [now rewrite Hyq | now rewrite Hyf | now rewrite Hyp]).
    cbn [scheme netloc path]. repeat split. apply rstrip_app_slash.
  - rewrite (urlparse_plain_path sch loc "") by reflexivity.
    cbn [scheme netloc path]. repeat split. now rewrite Hy1.
Qed.

(** X13. A slash at the end of a link without query, fragment and
    parameters does not count: the link has the same canonical link with
    and without it. *)
Theorem trailing_slash_is_ignored :
  forall u,
    Py.has_char "?" u = false -> Py.has_char "#" u = false ->
    Py.has_char ";" u = false ->
    normalize_link (u ++ "/") = normalize_link u
    /\ normalize_telegram_channel (u ++ "/") = normalize_telegram_channel u
    /\ normalized_of (u ++ "/") = normalized_of u.
Proof.
  intros u Hq Hf Hp.
  pose proof (urlparse_trailing_slash u Hq Hf Hp) as H.
  assert (Hl : normalize_link (u ++ "/") = normalize_link u).
  { unfold normalize_link.
    destruct (urlparse u) as [p|e], (urlparse (u ++ "/")) as [p'|e'];
      cbn [bind]; try contradiction; [|now subst].
    destruct H as [-> [-> ->]]. reflexivity. }
  assert (Ht : normalize_telegram_channel (u ++ "/")
               = normalize_telegram_channel u).
  { unfold normalize_telegram_channel.
    destruct (urlparse u) as [p|e], (urlparse (u ++ "/")) as [p'|e'];
      cbn [bind]; try contradiction; [|now subst].
    destruct H as [-> [-> ->]]. reflexivity. }
  split; [exact Hl|]. split; [exact Ht|].
  unfold normalized_of. rewrite contains_app_char by reflexivity.
  now rewrite Hl, Ht.
Qed.

(** ** The links of one channel *)

Lemma segment_char_spec (c : ascii) :
  segment_char c = true ->
  Ascii.eqb c "/" = false /\ Ascii.eqb c "?" = false
  /\ Ascii.eqb c "#" = false /\ Ascii.eqb c ";" = false
  /\ unsafe_url_byte c = false.
Proof.
  unfold segment_char.
  destruct (Ascii.eqb c "/"), (Ascii.eqb c "?"), (Ascii.eqb c "#"),
    (Ascii.eqb c ";"), (unsafe_url_byte c); cbn; intros H;
    try discriminate H; repeat split.
Qed.

Lemma digit_is_segment_char (c : ascii) :
  Py.digit_char c = true -> segment_char c = true.
Proof. destruct c as [[] [] [] [] [] [] [] []]; (reflexivity || discriminate). Qed.

Lemma all_chars_impl (p q : ascii -> bool) (s : string) :
  (forall c, p c = true -> q c = true) ->
  Py.all_chars p s = true -> Py.all_chars q s = true.
Proof.
  intros Hpq. induction s as [|a s IH]; cbn [Py.all_chars]; [reflexivity|].
  intros H. apply andb_prop in H as [Ha Hs]. now rewrite (Hpq a Ha), IH.
Qed.

Lemma isdigit_segment (d : string) :
  Py.isdigit d = true -> Py.all_chars segment_char d = true.
Proof.
  destruct d as [|a d]; [discriminate|]. unfold Py.isdigit.
  apply all_chars_impl, digit_is_segment_char.
Qed.

Lemma segment_has_none (x : ascii) (s : string) :
  (forall c, segment_char c = true -> Ascii.eqb c x = false) ->
  Py.all_chars segment_char s = true -> Py.has_char x s = false.
Proof.
  intros Hx. induction s as [|a s IH]; cbn [Py.all_chars Py.has_char];
    [reflexivity|].
  intros H. apply andb_prop in H as [Ha Hs]. now rewrite (Hx a Ha), IH.
Qed.

Lemma segment_remove (s : string) :
  Py.all_chars segment_char s = true -> Py.remove unsafe_url_byte s = s.
Proof.
  induction s as [|a s IH]; cbn [Py.all_chars Py.remove]; [reflexivity|].
  intros H. apply andb_prop in H as [Ha Hs].
  destruct (segment_char_spec a Ha) as [_ [_ [_ [_ ->]]]]. now rewrite IH.
Qed.

Lemma split_none (c : ascii) (s : string) :
  Py.has_char c s = false -> Py.split c s = [s].
Proof.
  induction s as [|a s IH]; [reflexivity|].
  cbn [Py.has_char]. intros H. apply orb_false_elim in H as [Ha Hs].
  rewrite split_cons, Ha, (IH Hs). reflexivity.
Qed.

Lemma split_at (c : ascii) (a x : string) :
  Py.has_char c a = false ->
  Py.split c (a ++ String c x) = a :: Py.split c x.
Proof.
  induction a as [|b a IH].
  - intros _. change ("" ++ String c x) with (String c x).
    now rewrite split_cons, Ascii.eqb_refl.
  - cbn [Py.has_char]. intros H. apply orb_false_elim in H as [Hb Ha].
    change (String b a ++ String c x) with (String b (a ++ String c x)).
    rewrite split_cons, Hb, (IH Ha). reflexivity.
Qed.

Lemma rstrip_none (c : ascii) (s : string) :
  Py.has_char c s = false -> Py.rstrip c s = s.
Proof.
  induction s as [|a s IH]; [reflexivity|].
  cbn [Py.has_char Py.rstrip]. intros H.
  apply orb_false_elim in H as [Ha Hs]. rewrite (IH Hs), Ha.
  now destruct s.
Qed.

Lemma startswith_up_to_slash (p ch x : string) :
  slash_only_last p = true -> Py.has_char "/" ch = false ->
  Py.startswith p (ch ++ String "/" x) = Py.startswith p (ch ++ "/").
Proof.
  revert ch; induction p as [|a p IH]; intros ch Hp Hc; [now destruct ch|].
  destruct ch as [|b ch].
  - change ("" ++ String "/" x) with (String "/" x).
    change ("" ++ "/") with "/". cbn [Py.startswith].
    destruct p as [|a' p]; [now destruct (Ascii.eqb a "/")|].
    cbn [slash_only_last] in Hp. apply andb_prop in Hp as [Ha _].
    apply negb_true_iff in Ha. now rewrite Ha.
  - cbn [Py.has_char] in Hc. apply orb_false_elim in Hc as [_ Hc].
    change (String b ch ++ String "/" x) with (String b (ch ++ String "/" x)).
    change (String b ch ++ "/") with (String b (ch ++ "/")).
    cbn [Py.startswith]. rewrite IH; [reflexivity| |exact Hc].
    destruct p as [|a' p]; [reflexivity|].
    cbn [slash_only_last] in Hp. now apply andb_prop in Hp as [_ Hp].
Qed.

Lemma special_prefix_of_segment (ch x : string) :
  Py.has_char "/" ch = false ->
  has_special_prefix (String "/" (ch ++ String "/" x))
  = has_special_prefix (String "/" (ch ++ "/")).
Proof.
  intros Hc. unfold has_special_prefix, special_prefixes.
  cbn [existsb].
  assert (Hs : forall p t, Py.startswith (String "/" p) (String "/" t)
                           = Py.startswith p t) by reflexivity.
  rewrite !Hs.
  now rewrite !(startswith_up_to_slash _ ch x) by (reflexivity || exact Hc).
Qed.

(** A link to t.me over https without query, fragment or parameters. *)
Lemma urlparse_tme (t : string) :
  Py.remove unsafe_url_byte t = t ->
  Py.has_char "?" t = false -> Py.has_char "#" t = false ->
  Py.has_char ";" t = false ->
  urlparse ("https://t.me/" ++ t)
  = Ok (mkParseResult "https" "t.me" (String "/" t) "" "" "").
Proof.
  intros Hr Hq Hf Hp.
  change ("https://t.me/" ++ t) with ("https" ++ String ":" ("//t.me/" ++ t)).
  rewrite urlparse_with_scheme by reflexivity.
  change ("//t.me/" ++ t) with ("//t.me" ++ String "/" t).
  rewrite remove_app.
  replace (Py.remove unsafe_url_byte "//t.me") with "//t.me" by reflexivity.
  replace (Py.remove unsafe_url_byte (String "/" t)) with (String "/" t)
    by (cbn [Py.remove]; replace (unsafe_url_byte "/") with false by reflexivity;
        now rewrite Hr).
  replace (split_netloc ("//t.me" ++ String "/" t))
    with ("t.me", String "/" t) by reflexivity.
  replace (check_netloc "t.me") with (@Ok unit tt) by reflexivity.
  cbn [bind].
  apply (urlparse_plain_path (Py.lower "https") "t.me" (String "/" t));
    cbn [Py.has_char]; assumption.
Qed.

(** X14. All message links of a channel have the channel's link as their
    canonical link, and the channel's link has itself: the channel and its
    messages are one entry for the store. *)
Theorem channel_messages_collapse :
  forall ch d,
    ch <> "" ->
    Py.all_chars segment_char ch = true ->
    has_special_prefix ("/" ++ ch ++ "/") = false ->
    Py.isdigit d = true ->
    normalized_of ("https://t.me/" ++ ch ++ String "/" d)
    = Ok ("https://t.me/" ++ ch)
    /\ normalized_of ("https://t.me/" ++ ch) = Ok ("https://t.me/" ++ ch).
Proof.
  intros ch d Hne Hch Hsp Hd.
  pose proof (isdigit_segment d Hd) as Hds.
  assert (Hno : forall x,
            (forall c, segment_char c = true -> Ascii.eqb c x = false) ->
            Py.has_char x ch = false /\ Py.has_char x d = false)
    by (intros x Hx; split; now apply segment_has_none).
  destruct (Hno "/"%char) as [Hcs Hdsl]; [intros c Hc; apply segment_char_spec, Hc|].
  destruct (Hno "?"%char) as [Hcq Hdq]; [intros c Hc; apply segment_char_spec, Hc|].
  destruct (Hno "#"%char) as [Hcf Hdf]; [intros c Hc; apply segment_char_spec, Hc|].
  destruct (Hno ";"%char) as [Hcp Hdp]; [intros c Hc; apply segment_char_spec, Hc|].
  split.
  - assert (Hp : urlparse ("https://t.me/" ++ ch ++ String "/" d)
                 = Ok (mkParseResult "https" "t.me"
                         (String "/" (ch ++ String "/" d)) "" "" "")).
    { apply urlparse_tme.
      - rewrite remove_app, (segment_remove ch Hch). cbn [Py.remove].
        replace (unsafe_url_byte "/") with false by reflexivity.
        now rewrite (segment_remove d Hds).
      - rewrite has_char_app, Hcq. cbn [Py.has_char]. now rewrite Hdq.
      - rewrite has_char_app, Hcf. cbn [Py.has_char]. now rewrite Hdf.
      - rewrite has_char_app, Hcp. cbn [Py.has_char]. now rewrite Hdp. }
    unfold normalized_of.
    replace (Py.contains "t.me" ("https://t.me/" ++ ch ++ String "/" d))
      with true by reflexivity.
    rewrite (numeric_second_segment_collapses _ _ ch d Hp); try reflexivity.
    + cbn [path]. rewrite special_prefix_of_segment by exact Hcs. exact Hsp.
    + cbn [path]. rewrite split_cons, Ascii.eqb_refl, split_at by exact Hcs.
      reflexivity.
    + cbn [path]. rewrite split_cons, Ascii.eqb_refl, split_at by exact Hcs.
      cbn [nth_error]. now rewrite split_none.
    + exact Hd.
  - assert (Hp : urlparse ("https://t.me/" ++ ch)
                 = Ok (mkParseResult "https" "t.me" (String "/" ch) "" "" ""))
      by (apply urlparse_tme; auto using segment_remove).
    rewrite (general_rule_applies _ _ Hp).
    + unfold general_form. cbn [scheme netloc path Py.rstrip].
      rewrite (rstrip_none "/" ch Hcs). destruct ch; [congruence|reflexivity].
    + right. right. right. cbn [path]. intros second.
      rewrite split_cons, Ascii.eqb_refl, split_none by exact Hcs.
      discriminate.
Qed.

End Crawler.

(** ** The start-up check *)

(** C9. Without a token, or with an empty one, the module initialises the
    database, prints the diagnostic and ends by [exit()], whose status is 0;
    the application is not built. *)
Theorem missing_token_exit :
  forall is_main,
    module_body None is_main = ([InitDb; PrintTokenNotFound], Some 0%Z)
    /\ module_body (Some "") is_main
       = ([InitDb; PrintTokenNotFound], Some 0%Z).
Proof. intros is_main. split; reflexivity. Qed.

(** ** Runs on concrete inputs *)

Lemma canonical_group_pair_unique_witness :
  exists w1 w2 r1 r2,
    save_links_to_db no_bracketed_host ["https://example.com/a"] group_a
      (Some poster) first_start = (w1, Ok 1)
    /\ save_links_to_db no_bracketed_host ["https://example.com/a"] group_b
         (Some poster) w1 = (w2, Ok 1)
    /\ rows (db w2) = (rows (db first_start) ++ [r1; r2])%list
    /\ key r1 = ("https://example.com/a", chat_id group_a)
    /\ key r2 = ("https://example.com/a", chat_id group_b)
    /\ r1 <> r2.
Proof.
  apply (proj2 (proj2 (canonical_group_pair_unique no_bracketed_host))
           "https://example.com/a" "https://example.com/a"
           group_a group_b poster poster first_start).
  - reflexivity.
  - reflexivity.
  - discriminate.
  - simpl. tauto.
  - simpl. tauto.
Defined.

Lemma save_twice_is_idempotent_witness :
  exists w2,
    save_links_to_db no_bracketed_host
      ["https://t.me/chan/1"; "https://t.me/chan/2"; "https://example.com/"]
      group_a (Some poster)
      (fst (save_links_to_db no_bracketed_host
              ["https://t.me/chan/1"; "https://t.me/chan/2";
               "https://example.com/"]
              group_a (Some poster) first_start))
    = (w2, Ok 0)
    /\ rows (db w2)
       = rows (db (fst (save_links_to_db no_bracketed_host
                          ["https://t.me/chan/1"; "https://t.me/chan/2";
                           "https://example.com/"]
                          group_a (Some poster) first_start)))
    /\ List.length (records_of (chat_id group_a) (rows (db w2))) = 2.
Proof.
  apply (save_twice_is_idempotent no_bracketed_host
           ["https://t.me/chan/1"; "https://t.me/chan/2"; "https://example.com/"]
           group_a (Some poster) first_start).
  - reflexivity.
  - reflexivity.
  - vm_compute. reflexivity.
Defined.

Lemma telegram_special_rule_witness :
  (exists stripped k,
      "/joinchat/ABC123/" = stripped ++ slashes k
      /\ ends_with "/" stripped = false
      /\ normalized_of no_bracketed_host "https://t.me/joinchat/ABC123/"
         = Ok ("https" ++ "://" ++ "t.me" ++ stripped))
  /\ normalized_of no_bracketed_host "https://t.me/examplechannel/12345/"
     = Ok "https://t.me/examplechannel".
Proof.
  split.
  - apply (proj1 (proj1 (telegram_special_rule no_bracketed_host)
                    "https://t.me/joinchat/ABC123/"
                    (mkParseResult "https" "t.me" "/joinchat/ABC123/" "" "" "")
                    eq_refl eq_refl)).
    reflexivity.
  - apply (proj2 (proj1 (telegram_special_rule no_bracketed_host)
                    "https://t.me/examplechannel/12345/"
                    (mkParseResult "https" "t.me" "/examplechannel/12345/"
                       "" "" "")
                    eq_refl eq_refl)
             eq_refl eq_refl "examplechannel" "12345");
      reflexivity.
Defined.

Lemma general_rule_witness :
  (exists stripped k,
      "/page/" = stripped ++ slashes k
      /\ ends_with "/" stripped = false
      /\ normalized_of no_bracketed_host "https://example.com/page/?utm=abc"
         = Ok ("https" ++ "://" ++ "example.com" ++ stripped))
  /\ normalize_link no_bracketed_host
       ("https://example.com/page" ++ String "?" "utm=abc#frag")
     = normalize_link no_bracketed_host "https://example.com/page".
Proof.
  split.
  - apply (proj1 (general_rule no_bracketed_host)
             "https://example.com/page/?utm=abc"
             (mkParseResult "https" "example.com" "/page/" "" "utm=abc" "")
             eq_refl).
    left. reflexivity.
  - apply (proj1 (proj1 (proj2 (general_rule no_bracketed_host))
                    "https://example.com/page" "?"%char "utm=abc#frag"
                    (or_introl eq_refl) eq_refl eq_refl)).
Defined.

Lemma empty_components_canonical_witness :
  exists stripped n,
    "foo//" = stripped ++ slashes n
    /\ ends_with "/" stripped = false
    /\ normalized_of no_bracketed_host "foo//" = Ok ("://" ++ stripped)
    /\ forall rest chat s conn k w,
         no_fault w ->
         exists conn' k' w',
           insert_each no_bracketed_host ("foo//" :: rest) chat (Some s) conn k w
           = insert_each no_bracketed_host rest chat (Some s) conn' k' w'.
Proof.
  apply (empty_components_canonical no_bracketed_host "foo//"
           (mkParseResult "" "" "foo//" "" "" ""));
    reflexivity.
Defined.

(** The raw string is not what comes out: [foo] has neither scheme nor
    host, and its canonical link is [://foo]. *)
Lemma raw_fallback_counterexample :
  urlparse no_bracketed_host "foo" = Ok (mkParseResult "" "" "foo" "" "" "")
  /\ normalized_of no_bracketed_host "foo" = Ok "://foo"
  /\ "://foo" <> "foo".
Proof. repeat split; try reflexivity. discriminate. Qed.

Lemma connection_released_on_completion_witness :
  trace (fst (save_links_to_db no_bracketed_host
                ["https://example.com/a"; "https://example.com/a/"]
                group_a (Some poster) first_start))
  = (trace first_start ++ [Connect; Commit; Close])%list
  /\ open_connections
       (trace (fst (save_links_to_db no_bracketed_host
                      ["https://example.com/a"; "https://example.com/a/"]
                      group_a (Some poster) first_start)))
     = open_connections (trace first_start).
Proof.
  apply (connection_released_on_completion no_bracketed_host
           ["https://example.com/a"; "https://example.com/a/"]
           group_a (Some poster) first_start _ 1).
  vm_compute. reflexivity.
Defined.

(** A storage fault leaves the connection open: on the first INSERT, and in
    the middle of a batch, where the row already inserted is not committed
    either. *)
Lemma connection_leak_counterexample :
  save_links_to_db no_bracketed_host ["https://example.com/a"] group_a
    (Some poster) failing_disk
  = (mkWorld (mkDatabase [] 0) 1 [] [Connect], Raise OperationalError)
  /\ save_links_to_db no_bracketed_host
       ["https://example.com/a"; "https://example.com/b"] group_a
       (Some poster) (mkWorld (mkDatabase [] 0) 0 [false; true] [])
     = (mkWorld (mkDatabase [] 0) 2 [] [Connect], Raise OperationalError)
  /\ open_connections [Connect] = 1%Z.
Proof. repeat split; reflexivity. Qed.

Lemma handler_effects_witness :
  handle_all_messages no_bracketed_host
    (Some (mkMessage (Some "hello") [] None [] None None))
    group_a (Some poster) first_start
  = (first_start, Ok tt)
  /\ handle_all_messages no_bracketed_host (Some two_links_message)
       group_a (Some poster) first_start
     = (mkWorld
          (mkDatabase
             [mkRow 1 "https://t.me/chan" "https://t.me/chan/5" "telegram"
                1 (Some "A") 7 "Ada" 0;
              mkRow 2 "https://example.com/a" "https://example.com/a/?x=1"
                "other" 1 (Some "A") 7 "Ada" 1]
             2)
          2 []
          [Connect; Commit; Close; Print (SavedLine 2 1 (Some "A"))],
        Ok tt)
  /\ (exists cs added,
        Forall2 (fun link c =>
                   (if Py.contains "t.me" link
                    then normalize_telegram_channel no_bracketed_host link
                    else normalize_link no_bracketed_host link) = Ok c
                   /\ is_canonical_of no_bracketed_host link c)
          ["https://t.me/chan/5"; "https://example.com/a/?x=1"] cs
        /\ [mkRow 1 "https://t.me/chan" "https://t.me/chan/5" "telegram"
              1 (Some "A") 7 "Ada" 0;
            mkRow 2 "https://example.com/a" "https://example.com/a/?x=1"
              "other" 1 (Some "A") 7 "Ada" 1]
           = ([] ++ added)%list
        /\ map (fun r => (normalized_link r, original_link r)) added
           = first_new (stored 1 [])
               (combine cs ["https://t.me/chan/5"; "https://example.com/a/?x=1"])
        /\ Forall (fun r => group_id r = 1%Z) added
        /\ 2 = List.length added).
Proof.
  split; [|split].
  - apply (proj1 (proj2 (handler_effects no_bracketed_host
                           (mkMessage (Some "hello") [] None [] None None)
                           group_a (Some poster) first_start))).
    reflexivity.
  - apply (proj1 (proj2 (proj2 (handler_effects no_bracketed_host
                           two_links_message
                           group_a (Some poster) first_start)))
             ltac:(discriminate) two_links_saved (Ok 2)).
    reflexivity.
  - apply (proj2 (proj2 (proj2 (handler_effects no_bracketed_host
                           two_links_message
                           group_a (Some poster) first_start)))
             two_links_saved 2).
    reflexivity.
Defined.

Lemma batch_duplicates_collapse_witness :
  (exists cs added,
      canonical_links no_bracketed_host
        ["https://t.me/chan/1"; "https://t.me/chan/2"] = Ok cs
      /\ rows (db (fst (save_links_to_db no_bracketed_host
                          ["https://t.me/chan/1"; "https://t.me/chan/2"]
                          group_a (Some poster) first_start)))
         = (rows (db first_start) ++ added)%list
      /\ 1 = List.length added
      /\ 1 = List.length
               (nodup string_dec
                  (filter
                     (fun c => negb (stored (chat_id group_a)
                                       (rows (db first_start)) c))
                     cs))
      /\ NoDup (map normalized_link added)
      /\ map (fun r => (normalized_link r, original_link r)) added
         = first_new (stored (chat_id group_a) (rows (db first_start)))
             (combine cs ["https://t.me/chan/1"; "https://t.me/chan/2"]))
  /\ (exists w' r,
        save_links_to_db no_bracketed_host
          ["https://t.me/chan/1"; "https://t.me/chan/2"] group_a (Some poster)
          first_start = (w', Ok 1)
        /\ rows (db w') = (rows (db first_start) ++ [r])%list
        /\ normalized_link r = "https://t.me/chan"
        /\ original_link r = "https://t.me/chan/1"
        /\ group_id r = chat_id group_a).
Proof.
  split.
  - apply (proj1 (batch_duplicates_collapse no_bracketed_host)
             ["https://t.me/chan/1"; "https://t.me/chan/2"]
             group_a (Some poster) first_start).
    vm_compute. reflexivity.
  - apply (proj2 (batch_duplicates_collapse no_bracketed_host)
             "https://t.me/chan/1" "https://t.me/chan/2" "https://t.me/chan"
             group_a poster first_start);
      reflexivity.
Defined.

(** X15. The token check stands outside the [__main__] guard: without a
    token the module ends the process even when it is only imported; with
    one, the application is built with that token and polls only when the
    module is run as the program; the database is initialised first in
    every case. *)
Theorem startup_gate :
  forall TOKEN is_main,
    hd_error (fst (module_body TOKEN is_main)) = Some InitDb
    /\ (snd (module_body TOKEN is_main) <> None <-> Py.truthy TOKEN = false)
    /\ (In RunPolling (fst (module_body TOKEN is_main))
        <-> Py.truthy TOKEN = true /\ is_main = true)
    /\ (forall t, In (BuildApplication t) (fst (module_body TOKEN is_main))
                  <-> TOKEN = Some t /\ t <> "" /\ is_main = true).
Proof.
  intros [[|a t0]|] [|]; cbn; repeat (split; intros);
    repeat match goal with
           | H : _ /\ _ |- _ => destruct H
           | H : _ \/ _ |- _ => destruct H
           | H : False |- _ => destruct H
           end;
    subst; try discriminate; try congruence; try tauto;
    try (right; left; congruence).
Qed.

(** ** Further runs on concrete inputs *)

Lemma failed_batch_persists_nothing_witness :
  db (mkWorld (mkDatabase [] 0) 1 [] [Connect]) = db failing_disk
  /\ trace (mkWorld (mkDatabase [] 0) 1 [] [Connect])
     = (trace failing_disk ++ [Connect])%list
  /\ open_connections (trace (mkWorld (mkDatabase [] 0) 1 [] [Connect]))
     = (open_connections (trace failing_disk) + 1)%Z
  /\ (OperationalError = ValueError \/ OperationalError = AttributeError
      \/ OperationalError = OperationalError).
Proof.
  apply (failed_batch_persists_nothing no_bracketed_host
           ["https://example.com/a"] group_a (Some poster) failing_disk).
  reflexivity.
Defined.

Lemma malformed_link_aborts_batch_witness :
  exists w' e',
    save_links_to_db no_bracketed_host ["https://example.com/a"; "http://[x"]
      group_a (Some poster) first_start = (w', Raise e')
    /\ db w' = db first_start
    /\ (no_fault first_start -> Some poster <> None -> e' = ValueError).
Proof.
  apply (malformed_link_aborts_batch no_bracketed_host
           ["https://example.com/a"; "http://[x"] group_a (Some poster)
           first_start ValueError).
  reflexivity.
Defined.

Lemma missing_sender_never_saves_witness :
  exists w' e,
    handle_all_messages no_bracketed_host
      (Some (mkMessage None [] None []
               (Some (mkMarkup [[mkButton "open" (Some "https://t.me/chan/7")]]))
               None))
      group_a None first_start = (w', Raise e)
    /\ (e = ValueError \/ e = AttributeError)
    /\ db w' = db first_start
    /\ trace w' = (trace first_start ++ [Connect])%list.
Proof.
  apply (missing_sender_never_saves no_bracketed_host).
  discriminate.
Defined.

Lemma bracket_free_links_normalise_witness :
  exists c, normalized_of no_bracketed_host "not a link at all" = Ok c.
Proof.
  apply (proj1 (bracket_free_links_normalise no_bracketed_host
                  "not a link at all" eq_refl));
    reflexivity.
Defined.



Lemma stored_rows_describe_their_link_witness :
  exists added,
    rows (db (fst (save_links_to_db no_bracketed_host
                     ["https://t.me/chan/1"; "https://chat.whatsapp.com/Inv"]
                     group_a (Some poster) first_start)))
    = (rows (db first_start) ++ added)%list
    /\ Forall (fun r =>
                 describes no_bracketed_host
                   ["https://t.me/chan/1"; "https://chat.whatsapp.com/Inv"]
                   group_a (Some poster) r
                 /\ (platform r = "telegram"
                     <-> Py.contains "t.me" (original_link r) = true))
         added.
Proof.
  apply (stored_rows_describe_their_link no_bracketed_host
           ["https://t.me/chan/1"; "https://chat.whatsapp.com/Inv"]
           group_a (Some poster) first_start _ 2).
  reflexivity.
Defined.

Lemma row_ids_stay_unique_witness :
  ids_fresh (db (fst (save_links_to_db no_bracketed_host
                        ["https://example.com/a"; "https://example.com/b"]
                        group_a (Some poster) first_start)))
  /\ (sequence (db first_start)
      <= sequence (db (fst (save_links_to_db no_bracketed_host
                              ["https://example.com/a"; "https://example.com/b"]
                              group_a (Some poster) first_start))))%Z.
Proof.
  apply (row_ids_stay_unique no_bracketed_host).
  split; constructor.
Defined.

Lemma line_printed_iff_new_link_witness :
  exists cs,
    canonical_links no_bracketed_host
      (extract_all_links_from_message
         (mkMessage (Some "see https://example.com/a")
            [mkEntity URL 4 21] None [] None None)) = Ok cs
    /\ ((exists n,
            trace (fst (handle_all_messages no_bracketed_host
                          (Some (mkMessage (Some "see https://example.com/a")
                                   [mkEntity URL 4 21] None [] None None))
                          group_a (Some poster) first_start))
            = (trace first_start
               ++ [Connect; Commit; Close;
                   Print (SavedLine n (chat_id group_a) (title group_a))])%list
            /\ 1 <= n
            /\ n <= List.length
                      (extract_all_links_from_message
                         (mkMessage (Some "see https://example.com/a")
                            [mkEntity URL 4 21] None [] None None)))
        <-> exists c, In c cs
                      /\ stored (chat_id group_a) (rows (db first_start)) c
                         = false).
Proof.
  apply (line_printed_iff_new_link no_bracketed_host
           (mkMessage (Some "see https://example.com/a")
              [mkEntity URL 4 21] None [] None None)
           group_a (Some poster) first_start).
  reflexivity.
Defined.

Lemma scheme_case_is_ignored_witness :
  urlparse no_bracketed_host ("HTTPS" ++ String ":" "//Example.com/Page")
  = urlparse no_bracketed_host (Py.lower "HTTPS" ++ String ":" "//Example.com/Page")
  /\ normalize_link no_bracketed_host ("HTTPS" ++ String ":" "//Example.com/Page")
     = normalize_link no_bracketed_host
         (Py.lower "HTTPS" ++ String ":" "//Example.com/Page")
  /\ normalize_telegram_channel no_bracketed_host
       ("HTTPS" ++ String ":" "//Example.com/Page")
     = normalize_telegram_channel no_bracketed_host
         (Py.lower "HTTPS" ++ String ":" "//Example.com/Page")
  /\ forall p,
       urlparse no_bracketed_host ("HTTPS" ++ String ":" "//Example.com/Page")
       = Ok p ->
       scheme p = Py.lower "HTTPS".
Proof.
  apply (scheme_case_is_ignored no_bracketed_host "HTTPS" "//Example.com/Page").
  reflexivity.
Defined.

Lemma url_entity_text_witness :
  extract_links_from_entities "hi" [mkEntity URL 2 5] = [EmptyString].
Proof.
  apply (proj2 url_entity_text "hi" 2%Z 5%Z); simpl; lia.
Defined.

Lemma trailing_slash_is_ignored_witness :
  normalize_link no_bracketed_host ("https://t.me/examplechannel" ++ "/")
  = normalize_link no_bracketed_host "https://t.me/examplechannel"
  /\ normalize_telegram_channel no_bracketed_host
       ("https://t.me/examplechannel" ++ "/")
     = normalize_telegram_channel no_bracketed_host "https://t.me/examplechannel"
  /\ normalized_of no_bracketed_host ("https://t.me/examplechannel" ++ "/")
     = normalized_of no_bracketed_host "https://t.me/examplechannel".
Proof.
  apply (trailing_slash_is_ignored no_bracketed_host
           "https://t.me/examplechannel");
    reflexivity.
Defined.

Lemma channel_messages_collapse_witness :
  normalized_of no_bracketed_host
    ("https://t.me/" ++ "examplechannel" ++ String "/" "42")
  = Ok ("https://t.me/" ++ "examplechannel")
  /\ normalized_of no_bracketed_host ("https://t.me/" ++ "examplechannel")
     = Ok ("https://t.me/" ++ "examplechannel").
Proof.
  apply (channel_messages_collapse no_bracketed_host "examplechannel" "42");
    [discriminate|reflexivity|reflexivity|reflexivity].
Defined.
